(** * validator-module: the validators and the schema of [src/index.js]

    A shallow embedding of the fluent validation library: values of the host
    language, the exceptions the rules throw, the validator classes with their
    chainable constraint methods, [validate] with its dynamic dispatch, and
    [Schema.validate].

    Rules are JavaScript closures kept in [this.rules]; they are modelled as
    functions in a state-and-exception monad over an arbitrary [World], so
    that "this rule was not run" is a statement about the world being left
    as it was. The rules the library itself pushes never touch the world. *)

From Stdlib Require Import List String Ascii ZArith Bool Lia DecimalString.
Import ListNotations.
Open Scope string_scope.

(** ** Host values *)

(** The JavaScript values a validator may be handed. A number is an integer
    (the safe integers of the host, printed in plain decimal); a string is a
    sequence of code units below 256; an object is a plain object given by its
    properties, none of them called [length]. *)
#[warnings="-register-all"]
Inductive JSValue : Type :=
| VUndefined
| VNull
| VBool (b : bool)
| VNum (n : Z)
| VStr (s : string)
| VArr (elems : list JSValue)
| VObj (props : list (string * JSValue)).

(** [typeof value]. *)
Definition typeof (v : JSValue) : string :=
  match v with
  | VUndefined => "undefined"
  | VNull => "object"
  | VBool _ => "boolean"
  | VNum _ => "number"
  | VStr _ => "string"
  | VArr _ => "object"
  | VObj _ => "object"
  end.

(** [a === b]. Two arrays or two objects are equal only when they are the same
    object; the values of this model carry no identity, and a value under
    validation is taken to be a different object from any it is compared to. *)
Definition strict_equals (a b : JSValue) : bool :=
  match a, b with
  | VUndefined, VUndefined => true
  | VNull, VNull => true
  | VBool x, VBool y => Bool.eqb x y
  | VNum x, VNum y => Z.eqb x y
  | VStr x, VStr y => String.eqb x y
  | _, _ => false
  end.

(** [array.includes(x)]: SameValueZero, which on integers and on the other
    values of the model is [===]. *)
Definition includes (array : list JSValue) (x : JSValue) : bool :=
  existsb (fun y => strict_equals y x) array.

Definition string_of_nat (n : nat) : string :=
  NilZero.string_of_uint (Nat.to_uint n).

(** Faithful to the host on the safe integers; from 1e21 on the host
    prints a number with an exponent. *)
Definition string_of_Z (n : Z) : string :=
  NilZero.string_of_int (Z.to_int n).

(** [String(v)], which is also what a template literal and [RegExp.test]
    apply to their argument. An array prints its elements joined by a comma,
    [undefined] and [null] among them as the empty string. *)
Fixpoint ToString (v : JSValue) : string :=
  match v with
  | VUndefined => "undefined"
  | VNull => "null"
  | VBool true => "true"
  | VBool false => "false"
  | VNum n => string_of_Z n
  | VStr s => s
  | VArr elems =>
      String.concat ","
        (map (fun e => match e with
                       | VUndefined | VNull => ""
                       | _ => ToString e
                       end) elems)
  | VObj _ => "[object Object]"
  end.

(** [array.join(sep)]. *)
Definition join (sep : string) (array : list JSValue) : string :=
  String.concat sep
    (map (fun e => match e with
                   | VUndefined | VNull => ""
                   | _ => ToString e
                   end) array).

(** ** Exceptions *)

(** What a [throw] can carry here: the plain object [{ field, message }] of the
    library, or a [TypeError] of the host. *)
Inductive thrown : Type :=
| ErrorObject (field message : JSValue)
| TypeError (message : string).

(** [throw { field, message }] with the field name and the message text. *)
Definition ValidationError (field message : string) : thrown :=
  ErrorObject (VStr field) (VStr message).

(** [error.field] and [error.message]. *)
Definition error_field (error : thrown) : JSValue :=
  match error with
  | ErrorObject field _ => field
  | TypeError _ => VUndefined
  end.

Definition error_message (error : thrown) : JSValue :=
  match error with
  | ErrorObject _ message => message
  | TypeError message => VStr message
  end.

Inductive result (A : Type) : Type :=
| Returned (a : A)
| Thrown (e : thrown).
Arguments Returned {A} a.
Arguments Thrown {A} e.

(** ** The host *)

(** What the library leaves to the host and this development does not define:
    the conversion of a string to a number inside [<] (given as the two
    comparisons it decides), whether [JSON.parse] accepts a text, and the
    message of the [TypeError] raised when a property of [undefined] or [null]
    is read. *)
Class Host : Type := {
  StringToNumber_lt : string -> Z -> bool;
  lt_StringToNumber : Z -> string -> bool;
  JSON_parse_ok : string -> bool;
  cannot_read_property : JSValue -> string -> string
}.

(** ** Regular expressions *)

Inductive regex : Type :=
| Fail
| Eps
| Chars (p : ascii -> bool)
| Cat (r1 r2 : regex)
| Alt (r1 r2 : regex)
| Star (r : regex).

Fixpoint nullable (r : regex) : bool :=
  match r with
  | Fail => false
  | Eps => true
  | Chars _ => false
  | Cat r1 r2 => nullable r1 && nullable r2
  | Alt r1 r2 => nullable r1 || nullable r2
  | Star _ => true
  end.

Fixpoint deriv (c : ascii) (r : regex) : regex :=
  match r with
  | Fail => Fail
  | Eps => Fail
  | Chars p => if p c then Eps else Fail
  | Cat r1 r2 =>
      if nullable r1
      then Alt (Cat (deriv c r1) r2) (deriv c r2)
      else Cat (deriv c r1) r2
  | Alt r1 r2 => Alt (deriv c r1) (deriv c r2)
  | Star r1 => Cat (deriv c r1) (Star r1)
  end.

Fixpoint matches (r : regex) (s : string) : bool :=
  match s with
  | EmptyString => nullable r
  | String c s' => matches (deriv c r) s'
  end.

(** A [RegExp] without flags: a body, anchored or not at either end. *)
Record RegExp : Type := {
  anchored_start : bool;
  body : regex;
  anchored_end : bool
}.

Definition any_char : regex := Chars (fun _ => true).

(** [regex.test(s)]: some substring matches, the anchors respected. *)
Definition RegExp_test (re : RegExp) (s : string) : bool :=
  matches
    (Cat (if anchored_start re then Eps else Star any_char)
         (Cat (body re) (if anchored_end re then Eps else Star any_char)))
    s.

Definition Plus (r : regex) : regex := Cat r (Star r).
Definition Opt (r : regex) : regex := Alt Eps r.

Fixpoint Times (n : nat) (r : regex) : regex :=
  match n with
  | O => Eps
  | S n' => Cat r (Times n' r)
  end.

Fixpoint UpTo (n : nat) (r : regex) : regex :=
  match n with
  | O => Eps
  | S n' => Opt (Cat r (UpTo n' r))
  end.

Definition code_in (codes : list nat) (c : ascii) : bool :=
  existsb (Nat.eqb (nat_of_ascii c)) codes.

(** [\s] on code units below 256: tab, line feed, vertical tab, form feed,
    carriage return, space and the no-break space. *)
Definition white_space (c : ascii) : bool :=
  code_in [9; 10; 11; 12; 13; 32; 160]%nat c.

Definition digit (c : ascii) : bool :=
  (48 <=? nat_of_ascii c)%nat && (nat_of_ascii c <=? 57)%nat.

(** [[^\s@]] *)
Definition not_space_nor_at (c : ascii) : bool :=
  negb (white_space c) && negb (Ascii.eqb c "@").

(** [/^[^\s@]+@[^\s@]+\.[^\s@]+$/] *)
Definition emailRegex : RegExp :=
  {| anchored_start := true;
     body := Cat (Plus (Chars not_space_nor_at))
            (Cat (Chars (Ascii.eqb "@"))
            (Cat (Plus (Chars not_space_nor_at))
            (Cat (Chars (Ascii.eqb "."))
                 (Plus (Chars not_space_nor_at)))));
     anchored_end := true |}.

(** [/^\+?[0-9]{10,12}$/] *)
Definition phoneRegex : RegExp :=
  {| anchored_start := true;
     body := Cat (Opt (Chars (Ascii.eqb "+")))
                 (Cat (Times 10 (Chars digit)) (UpTo 2 (Chars digit)));
     anchored_end := true |}.

(** ** Coercions and comparison *)

(** [ToPrimitive] with a number hint: an array or an object becomes its
    string. *)
Definition ToPrimitive (v : JSValue) : JSValue :=
  match v with
  | VArr _ | VObj _ => VStr (ToString v)
  | _ => v
  end.

(** [ToNumber] of a primitive that is not a string; [None] is [NaN]. *)
Definition ToNumber (v : JSValue) : option Z :=
  match v with
  | VNull => Some 0%Z
  | VBool true => Some 1%Z
  | VBool false => Some 0%Z
  | VNum n => Some n
  | _ => None
  end.

(** [a < b]: two strings are compared by code units, anything else as
    numbers, and a comparison with [NaN] is false. [a > b] is [lt b a]. *)
Definition lt {host : Host} (a b : JSValue) : bool :=
  match ToPrimitive a, ToPrimitive b with
  | VStr s, VStr t => String.ltb s t
  | VStr s, pb =>
      match ToNumber pb with
      | Some n => StringToNumber_lt s n
      | None => false
      end
  | pa, VStr t =>
      match ToNumber pa with
      | Some n => lt_StringToNumber n t
      | None => false
      end
  | pa, pb =>
      match ToNumber pa, ToNumber pb with
      | Some x, Some y => Z.ltb x y
      | _, _ => false
      end
  end.

(** [value.length]: a [TypeError] on [undefined] and [null], the length of a
    string or an array, [undefined] on anything else. *)
Definition length_of {host : Host} (v : JSValue) : result JSValue :=
  match v with
  | VUndefined | VNull => Thrown (TypeError (cannot_read_property v "length"))
  | VStr s => Returned (VNum (Z.of_nat (String.length s)))
  | VArr elems => Returned (VNum (Z.of_nat (List.length elems)))
  | VBool _ | VNum _ | VObj _ => Returned VUndefined
  end.

(** ** Computations that may change the world or throw *)

Section Computations.
Variable World : Type.

Definition M (A : Type) : Type := World -> World * result A.

(** A rule: [(value, field) => { ... }], called for its effect. *)
Definition Rule : Type := JSValue -> string -> M unit.
End Computations.

Definition ret {World A} (a : A) : M World A :=
  fun w => (w, Returned a).

Definition throw {World A} (e : thrown) : M World A :=
  fun w => (w, Thrown e).

Definition bind {World A B} (m : M World A) (k : A -> M World B) : M World B :=
  fun w =>
    match m w with
    | (w', Returned a) => k a w'
    | (w', Thrown e) => (w', Thrown e)
    end.

Definition lift {World A} (r : result A) : M World A :=
  fun w => (w, r).

(** [try { m } catch (error) { handler(error) }] *)
Definition catch {World A} (m : M World A) (handler : thrown -> M World A)
  : M World A :=
  fun w =>
    match m w with
    | (w', Returned a) => (w', Returned a)
    | (w', Thrown error) => handler error w'
    end.

Notation "x <- m ;; k" := (bind m (fun x => k))
  (at level 61, m at next level, right associativity).
Notation "m ;;; k" := (bind m (fun _ => k))
  (at level 61, right associativity).

(** ** Validators *)

Inductive validator_class : Type :=
| IsString
| IsNumber
| IsBoolean
| IsArray
| IsJSON.

(** A validator object: its class, [this.rules], [this.isRequired] and, on an
    array validator, [this.itemValidator] ([None] for [null] and for the
    classes without the field). *)
#[warnings="-register-all"]
Inductive BaseValidator (World : Type) : Type := Build_BaseValidator {
  class_of : validator_class;
  rules : list (Rule World);
  isRequired : bool;
  itemValidator : option (BaseValidator World)
}.
Arguments Build_BaseValidator {World}.
Arguments class_of {World}.
Arguments rules {World}.
Arguments isRequired {World}.
Arguments itemValidator {World}.

(** [this.rules.push(rule); return this]. *)
Definition push {World} (rule : Rule World) (this : BaseValidator World)
  : BaseValidator World :=
  {| class_of := class_of this;
     rules := rules this ++ [rule];
     isRequired := isRequired this;
     itemValidator := itemValidator this |}.

(** *** [class BaseValidator] *)

Module BaseValidator.
Section Methods.
Context {World : Type} {host : Host}.

(** [constructor()] of the class [c]. *)
Definition new (c : validator_class) : BaseValidator World :=
  {| class_of := c; rules := []; isRequired := false; itemValidator := None |}.

(** The rule [required()] pushes. *)
Definition required_rule : Rule World :=
  fun value field =>
    if strict_equals value VUndefined
       || strict_equals value VNull
       || strict_equals value (VStr "")
    then throw (ValidationError field "Value is required")
    else ret tt.

Definition required (this : BaseValidator World) : BaseValidator World :=
  {| class_of := class_of this;
     rules := rules this ++ [required_rule];
     isRequired := true;
     itemValidator := itemValidator this |}.

Definition oneOf_rule (allowedValues : list JSValue) : Rule World :=
  fun value field =>
    if negb (includes allowedValues value)
    then throw (ValidationError field
                  ("Value must be one of: " ++ join ", " allowedValues))
    else ret tt.

Definition oneOf (allowedValues : list JSValue) (this : BaseValidator World)
  : BaseValidator World :=
  push (oneOf_rule allowedValues) this.

(** [for (let rule of this.rules) { rule(value, field); }] *)
Fixpoint run_rules (rs : list (Rule World)) (value : JSValue) (field : string)
  : M World unit :=
  match rs with
  | [] => ret tt
  | rule :: rest => rule value field ;;; run_rules rest value field
  end.

Definition validate (this : BaseValidator World) (value : JSValue) (field : string)
  : M World JSValue :=
  if strict_equals value VUndefined && negb (isRequired this)
  then ret VUndefined
  else run_rules (rules this) value field ;;; ret (VBool true).
End Methods.
End BaseValidator.

(** *** [class BooleanValidator extends BaseValidator] *)

Module BooleanValidator.
Section Methods.
Context {World : Type} {host : Host}.

Definition validate (this : BaseValidator World) (value : JSValue) (field : string)
  : M World JSValue :=
  if strict_equals value VUndefined && negb (isRequired this)
  then ret VUndefined
  else if negb (String.eqb (typeof value) "boolean")
  then throw (ValidationError field "Value must be a boolean")
  else BaseValidator.validate this value field.
End Methods.
End BooleanValidator.

(** *** [class JSONValidator extends BaseValidator] *)

Module JSONValidator.
Section Methods.
Context {World : Type} {host : Host}.

(** [JSON.parse(value)] converts its argument to a string first; what it
    returns is dropped, what it throws is caught. *)
Definition validate (this : BaseValidator World) (value : JSValue) (field : string)
  : M World JSValue :=
  if strict_equals value VUndefined && negb (isRequired this)
  then ret VUndefined
  else if negb (JSON_parse_ok (ToString value))
  then throw (ValidationError field "Invalid JSON format")
  else BaseValidator.validate this value field.
End Methods.
End JSONValidator.

(** [validator.validate(value, field)]: the method of the object's class, the
    inherited one where the class does not override it. *)
Definition validate {World : Type} {host : Host} (this : BaseValidator World)
  : JSValue -> string -> M World JSValue :=
  match class_of this with
  | IsBoolean => BooleanValidator.validate this
  | IsJSON => JSONValidator.validate this
  | IsString | IsNumber | IsArray => BaseValidator.validate this
  end.

(** *** [class StringValidator extends BaseValidator] *)

Module StringValidator.
Section Methods.
Context {World : Type} {host : Host}.

Definition email_rule : Rule World :=
  fun value field =>
    if negb (RegExp_test emailRegex (ToString value))
    then throw (ValidationError field "Invalid email format")
    else ret tt.

Definition email (this : BaseValidator World) : BaseValidator World :=
  push email_rule this.

Definition min_rule (length : Z) : Rule World :=
  fun value field =>
    len <- lift (length_of value) ;;
    if lt len (VNum length)
    then throw (ValidationError field
                  ("Value must be at least " ++ string_of_Z length
                     ++ " characters long"))
    else ret tt.

Definition min (length : Z) (this : BaseValidator World) : BaseValidator World :=
  push (min_rule length) this.

Definition max_rule (length : Z) : Rule World :=
  fun value field =>
    len <- lift (length_of value) ;;
    if lt (VNum length) len
    then throw (ValidationError field
                  ("Value must be no more than " ++ string_of_Z length
                     ++ " characters long"))
    else ret tt.

Definition max (length : Z) (this : BaseValidator World) : BaseValidator World :=
  push (max_rule length) this.

(** [mask] stands for the pattern [new RegExp(mask)] compiles. *)
Definition reg_rule (mask : RegExp) : Rule World :=
  fun value field =>
    if negb (RegExp_test mask (ToString value))
    then throw (ValidationError field
                  "String does not match the required pattern")
    else ret tt.

Definition reg (mask : RegExp) (this : BaseValidator World) : BaseValidator World :=
  push (reg_rule mask) this.
End Methods.
End StringValidator.

(** *** [class NumberValidator extends BaseValidator] *)

Module NumberValidator.
Section Methods.
Context {World : Type} {host : Host}.

Definition min_rule (minValue : Z) : Rule World :=
  fun value field =>
    if lt value (VNum minValue)
    then throw (ValidationError field
                  ("Value must be greater than or equal to "
                     ++ string_of_Z minValue))
    else ret tt.

Definition min (minValue : Z) (this : BaseValidator World) : BaseValidator World :=
  push (min_rule minValue) this.

Definition max_rule (maxValue : Z) : Rule World :=
  fun value field =>
    if lt (VNum maxValue) value
    then throw (ValidationError field
                  ("Value must be less than or equal to "
                     ++ string_of_Z maxValue))
    else ret tt.

Definition max (maxValue : Z) (this : BaseValidator World) : BaseValidator World :=
  push (max_rule maxValue) this.

Definition phone_rule : Rule World :=
  fun value field =>
    if negb (RegExp_test phoneRegex (ToString value))
    then throw (ValidationError field "Invalid phone number format")
    else ret tt.

Definition phone (this : BaseValidator World) : BaseValidator World :=
  push phone_rule this.
End Methods.
End NumberValidator.

(** *** [class ArrayValidator extends BaseValidator] *)

Module ArrayValidator.
Section Methods.
Context {World : Type} {host : Host}.

Definition minLength_rule (length : Z) : Rule World :=
  fun value field =>
    len <- lift (length_of value) ;;
    if lt len (VNum length)
    then throw (ValidationError field
                  ("Array must contain at least " ++ string_of_Z length
                     ++ " items"))
    else ret tt.

Definition minLength (length : Z) (this : BaseValidator World) : BaseValidator World :=
  push (minLength_rule length) this.

Definition maxLength_rule (length : Z) : Rule World :=
  fun value field =>
    len <- lift (length_of value) ;;
    if lt (VNum length) len
    then throw (ValidationError field
                  ("Array must contain no more than " ++ string_of_Z length
                     ++ " items"))
    else ret tt.

Definition maxLength (length : Z) (this : BaseValidator World) : BaseValidator World :=
  push (maxLength_rule length) this.

(** [value[0]], ..., [value[value.length - 1]]: the elements of an array,
    the characters of a string; nothing where [value.length] is
    [undefined], since [0 < undefined] is false. *)
Definition elements (value : JSValue) : list JSValue :=
  match value with
  | VArr elems => elems
  | VStr s => map (fun c => VStr (String c EmptyString)) (list_ascii_of_string s)
  | _ => []
  end.

(** The body of [for (let i = 0; i < value.length; i++)], from index [i]
    on, over the elements still to visit. *)
Fixpoint items_loop (validator : BaseValidator World) (rest : list JSValue)
    (field : string) (i : nat) : M World unit :=
  match rest with
  | [] => ret tt
  | element :: rest' =>
      catch
        (validate validator element (field ++ "[" ++ string_of_nat i ++ "]")
           ;;; ret tt)
        (fun error =>
           throw (ErrorObject (error_field error) (error_message error))) ;;;
      items_loop validator rest' field (S i)
  end.

(** The loop condition reads [value.length] before the first element is
    looked at, outside the [try]. *)
Definition items_rule (validator : BaseValidator World) : Rule World :=
  fun value field =>
    lift (length_of value) ;;;
    items_loop validator (elements value) field 0.

Definition items (validator : BaseValidator World) (this : BaseValidator World)
  : BaseValidator World :=
  {| class_of := class_of this;
     rules := rules this ++ [items_rule validator];
     isRequired := isRequired this;
     itemValidator := Some validator |}.
End Methods.
End ArrayValidator.

(** ** Records and schemas *)

(** The object handed to [Schema.validate]: its own enumerable properties in
    the order [Object.keys] lists them, and the other properties [in] and
    [data[key]] can reach (own but not enumerable, or inherited). *)
Record object : Type := {
  own_enumerable : list (string * JSValue);
  other_properties : list (string * JSValue)
}.

(** The object that has these own enumerable properties, listed in the
    order [Object.keys] gives them, and no other property, own or inherited:
    [Object.create(null)] with the properties assigned. A plain object
    [{ ... }] differs from it by the members of [Object.prototype]
    ([constructor], [toString], ...), which [in] finds in it; the two agree
    on every other key. *)
Definition literal (props : list (string * JSValue)) : object :=
  {| own_enumerable := props; other_properties := [] |}.

Fixpoint assoc {A : Type} (key : string) (entries : list (string * A))
  : option A :=
  match entries with
  | [] => None
  | (k, a) :: rest => if String.eqb key k then Some a else assoc key rest
  end.

(** [Object.keys(data)] *)
Definition Object_keys (data : object) : list string :=
  map fst (own_enumerable data).

(** [key in data] *)
Definition has_property (key : string) (data : object) : bool :=
  match assoc key (own_enumerable data ++ other_properties data) with
  | Some _ => true
  | None => false
  end.

(** [data[key]] *)
Definition get_property (data : object) (key : string) : JSValue :=
  match assoc key (own_enumerable data ++ other_properties data) with
  | Some v => v
  | None => VUndefined
  end.

(** [schemaKeys.includes(key)] on an array of strings. *)
Definition includes_key (keys : list string) (key : string) : bool :=
  existsb (String.eqb key) keys.

(** *** The order of an object's own keys *)

Definition string_of_N (n : N) : string :=
  NilZero.string_of_uint (N.to_uint n).

(** The number a string of decimal digits writes, after [acc]; [None] when a
    character is not a digit. *)
Fixpoint digits_value (acc : N) (s : string) : option N :=
  match s with
  | EmptyString => Some acc
  | String c s' =>
      if digit c
      then digits_value (10 * acc + N.of_nat (nat_of_ascii c - 48)) s'
      else None
  end.

(** An array index: a key that is the canonical decimal string of an integer
    below 2^32 - 1 ([1] and [42] are, [01] and [1.5] are not). *)
Definition array_index (key : string) : option N :=
  match key with
  | EmptyString => None
  | String _ _ =>
      match digits_value 0 key with
      | Some n =>
          if (n <? 4294967295)%N && String.eqb (string_of_N n) key
          then Some n
          else None
      | None => None
      end
  end.

(** Defining a property: a key defined again keeps its place and takes the
    new value, a new key comes last. *)
Fixpoint define_property {A : Type} (key : string) (a : A)
    (props : list (string * A)) : list (string * A) :=
  match props with
  | [] => [(key, a)]
  | (k, b) :: rest =>
      if String.eqb key k
      then (k, a) :: rest
      else (k, b) :: define_property key a rest
  end.

Fixpoint insert_by_index {A : Type} (n : N) (entry : string * A)
    (sorted : list (N * (string * A))) : list (N * (string * A)) :=
  match sorted with
  | [] => [(n, entry)]
  | (m, e) :: rest =>
      if (n <? m)%N
      then (n, entry) :: (m, e) :: rest
      else (m, e) :: insert_by_index n entry rest
  end.

(** The order the host lists the own string keys of an object in: the array
    indices first, by ascending value, then the other keys in the order they
    were created. *)
Definition own_property_order {A : Type} (props : list (string * A))
  : list (string * A) :=
  map snd
    (fold_left
       (fun sorted entry =>
          match array_index (fst entry) with
          | Some n => insert_by_index n entry sorted
          | None => sorted
          end)
       props [])
  ++ filter
       (fun entry =>
          match array_index (fst entry) with
          | Some _ => false
          | None => true
          end)
       props.

(** [Object.entries(o)] for the object literal [o = { k1: a1, ..., kn: an }]
    with the properties written in this order (none of them [__proto__]). *)
Definition object_literal_entries {A : Type} (written : list (string * A))
  : list (string * A) :=
  own_property_order
    (fold_left (fun props entry => define_property (fst entry) (snd entry) props)
       written []).

(** A [Schema] object: [this.schema], the [Map] of the definition's entries
    in their order, and [this.only]. *)
Record Schema (World : Type) : Type := {
  schema : list (string * BaseValidator World);
  only : bool
}.
Arguments schema {World}.
Arguments only {World}.

Module Schema.
Section Methods.
Context {World : Type} {host : Host}.

(** [new Schema(schema, only)], [schema] given by [Object.entries(schema)]. *)
Definition new (entries : list (string * BaseValidator World)) (only : bool)
  : Schema World :=
  {| schema := entries; only := only |}.

(** [if (this.only) { ... }] *)
Definition reject_extra_fields (this : Schema World)
    (schemaKeys dataKeys : list string) : M World unit :=
  if only this
  then
    let extraFields :=
      filter (fun key => negb (includes_key schemaKeys key)) dataKeys in
    match extraFields with
    | extra :: _ =>
        throw (ValidationError extra
                 ("Unexpected field '" ++ extra ++ "' not defined in schema"))
    | [] => ret tt
    end
  else ret tt.

(** [for (let [key, validator] of this.schema.entries()) { ... }] *)
Fixpoint require_fields (entries : list (string * BaseValidator World))
    (data : object) : M World unit :=
  match entries with
  | [] => ret tt
  | (key, validator) :: rest =>
      if negb (has_property key data) && isRequired validator
      then throw (ValidationError key "Field is required")
      else require_fields rest data
  end.

(** [for (let key of schemaKeys) { ... }]; [this.schema.get(key)] is
    [undefined] for a key the map does not hold, and calling [validate] on
    it a [TypeError]. *)
Fixpoint validate_fields (this : Schema World) (keys : list string)
    (data : object) : M World unit :=
  match keys with
  | [] => ret tt
  | key :: rest =>
      (if has_property key data
       then
         match assoc key (schema this) with
         | Some validator =>
             validate validator (get_property data key) key ;;; ret tt
         | None =>
             throw (TypeError (cannot_read_property VUndefined "validate"))
         end
       else ret tt) ;;;
      validate_fields this rest data
  end.

Definition validate (this : Schema World) (data : object) : M World JSValue :=
  let schemaKeys := map fst (schema this) in
  let dataKeys := Object_keys data in
  reject_extra_fields this schemaKeys dataKeys ;;;
  require_fields (schema this) data ;;;
  validate_fields this schemaKeys data ;;;
  ret (VStr "Validation successful").
End Methods.
End Schema.

(** *** [class Validator]: the factory *)

Module Validator.
Section Methods.
Context {World : Type} {host : Host}.

Definition string : BaseValidator World := BaseValidator.new IsString.
Definition number : BaseValidator World := BaseValidator.new IsNumber.
Definition boolean : BaseValidator World := BaseValidator.new IsBoolean.
Definition array : BaseValidator World := BaseValidator.new IsArray.
Definition json : BaseValidator World := BaseValidator.new IsJSON.

Definition createSchema (schemaDefinition : list (String.string * BaseValidator World))
    (only : bool) : Schema World :=
  Schema.new schemaDefinition only.
End Methods.
End Validator.

(** ** A host to run the examples on *)

(** The grammar of JSON texts, as a recogniser over code units: [Some rest]
    is what follows the phrase read. *)
Definition json_white_space (c : ascii) : bool :=
  code_in [9; 10; 13; 32]%nat c.

Fixpoint skip_white_space (l : list ascii) : list ascii :=
  match l with
  | c :: r => if json_white_space c then skip_white_space r else l
  | [] => []
  end.

Definition hex_digit (c : ascii) : bool :=
  digit c
  || ((65 <=? nat_of_ascii c)%nat && (nat_of_ascii c <=? 70)%nat)
  || ((97 <=? nat_of_ascii c)%nat && (nat_of_ascii c <=? 102)%nat).

Definition double_quote : ascii := ascii_of_nat 34.
Definition backslash : ascii := ascii_of_nat 92.

(** A string, from just after its opening quote. *)
Fixpoint json_string_tail (l : list ascii) : option (list ascii) :=
  match l with
  | [] => None
  | c :: r =>
      if Ascii.eqb c double_quote then Some r
      else if Ascii.eqb c backslash then
        match r with
        | e :: r' =>
            if code_in [34; 92; 47; 98; 102; 110; 114; 116]%nat e
            then json_string_tail r'
            else if Ascii.eqb e "u" then
              match r' with
              | h1 :: h2 :: h3 :: h4 :: r'' =>
                  if hex_digit h1 && hex_digit h2 && hex_digit h3 && hex_digit h4
                  then json_string_tail r''
                  else None
              | _ => None
              end
            else None
        | [] => None
        end
      else if (nat_of_ascii c <? 32)%nat then None
      else json_string_tail r
  end.

Fixpoint skip_digits (l : list ascii) : list ascii :=
  match l with
  | c :: r => if digit c then skip_digits r else l
  | [] => []
  end.

Definition json_digits (l : list ascii) : option (list ascii) :=
  match l with
  | c :: r => if digit c then Some (skip_digits r) else None
  | [] => None
  end.

Definition json_int (l : list ascii) : option (list ascii) :=
  match l with
  | c :: r =>
      if Ascii.eqb c "0" then Some r
      else if digit c then Some (skip_digits r)
      else None
  | [] => None
  end.

Definition json_frac (l : list ascii) : option (list ascii) :=
  match l with
  | c :: r => if Ascii.eqb c "." then json_digits r else Some l
  | [] => Some l
  end.

Definition json_exp (l : list ascii) : option (list ascii) :=
  match l with
  | c :: r =>
      if Ascii.eqb c "e" || Ascii.eqb c "E" then
        match r with
        | s :: r' =>
            if Ascii.eqb s "+" || Ascii.eqb s "-"
            then json_digits r'
            else json_digits r
        | [] => None
        end
      else Some l
  | [] => Some l
  end.

Definition json_number (l : list ascii) : option (list ascii) :=
  let unsigned :=
    match l with
    | c :: r => if Ascii.eqb c "-" then r else l
    | [] => l
    end in
  match json_int unsigned with
  | Some l1 =>
      match json_frac l1 with
      | Some l2 => json_exp l2
      | None => None
      end
  | None => None
  end.

Fixpoint strip_prefix (word l : list ascii) : option (list ascii) :=
  match word, l with
  | [], _ => Some l
  | a :: word', c :: r => if Ascii.eqb a c then strip_prefix word' r else None
  | _ :: _, [] => None
  end.

Fixpoint json_value (fuel : nat) (l : list ascii) : option (list ascii) :=
  match fuel with
  | O => None
  | S fuel' =>
      match skip_white_space l with
      | [] => None
      | c :: r =>
          if Ascii.eqb c "{" then
            match skip_white_space r with
            | d :: r' =>
                if Ascii.eqb d "}" then Some r' else json_members fuel' (d :: r')
            | [] => None
            end
          else if Ascii.eqb c "[" then
            match skip_white_space r with
            | d :: r' =>
                if Ascii.eqb d "]" then Some r' else json_elements fuel' (d :: r')
            | [] => None
            end
          else if Ascii.eqb c double_quote then json_string_tail r
          else if Ascii.eqb c "t" then strip_prefix (list_ascii_of_string "rue") r
          else if Ascii.eqb c "f" then strip_prefix (list_ascii_of_string "alse") r
          else if Ascii.eqb c "n" then strip_prefix (list_ascii_of_string "ull") r
          else json_number (c :: r)
      end
  end
with json_members (fuel : nat) (l : list ascii) : option (list ascii) :=
  match fuel with
  | O => None
  | S fuel' =>
      match skip_white_space l with
      | q :: r =>
          if Ascii.eqb q double_quote then
            match json_string_tail r with
            | Some r1 =>
                match skip_white_space r1 with
                | colon :: r2 =>
                    if Ascii.eqb colon ":" then
                      match json_value fuel' r2 with
                      | Some r3 =>
                          match skip_white_space r3 with
                          | d :: r4 =>
                              if Ascii.eqb d "," then json_members fuel' r4
                              else if Ascii.eqb d "}" then Some r4
                              else None
                          | [] => None
                          end
                      | None => None
                      end
                    else None
                | [] => None
                end
            | None => None
            end
          else None
      | [] => None
      end
  end
with json_elements (fuel : nat) (l : list ascii) : option (list ascii) :=
  match fuel with
  | O => None
  | S fuel' =>
      match json_value fuel' l with
      | Some r =>
          match skip_white_space r with
          | d :: r' =>
              if Ascii.eqb d "," then json_elements fuel' r'
              else if Ascii.eqb d "]" then Some r'
              else None
          | [] => None
          end
      | None => None
      end
  end.

(** Whether the whole text is one JSON value between white space. Every call
    that does not read a character is followed by one that does, so twice the
    length of the text is fuel enough. *)
Definition JSON_accepts (text : string) : bool :=
  let l := list_ascii_of_string text in
  match json_value (2 * List.length l + 2) l with
  | Some r =>
      match skip_white_space r with
      | [] => true
      | _ :: _ => false
      end
  | None => false
  end.

(** The host of the examples: its [JSON.parse] accepts the JSON texts, its
    [TypeError] messages are those of V8. No example compares a string with
    a number, and the two comparisons that would convert the string are left
    constant. *)
Definition example_host : Host :=
  {| StringToNumber_lt := fun _ _ => false;
     lt_StringToNumber := fun _ _ => false;
     JSON_parse_ok := JSON_accepts;
     cannot_read_property := fun v property =>
       "Cannot read properties of " ++ ToString v
         ++ " (reading '" ++ property ++ "')" |}.

(** A text between double quotes. *)
Definition quoted (s : string) : string :=
  String double_quote (s ++ String double_quote EmptyString).

(** The world of the examples: the log that [log_rule] writes to. *)
Definition Log : Type := list string.

(** A rule with an effect one can observe: it records the field it was
    called for, and lets every value pass. *)
Definition log_rule : Rule Log :=
  fun value field w => (field :: w, Returned tt).

(** ** Notions the statements use *)

Section Notions.
Context {World : Type} {host : Host}.

(** The values the [required] rule takes for missing. *)
Definition missing (value : JSValue) : Prop :=
  value = VUndefined \/ value = VNull \/ value = VStr "".

(** [value === undefined && !this.isRequired]: the value is skipped. *)
Definition skipped (this : BaseValidator World) (value : JSValue) : bool :=
  strict_equals value VUndefined && negb (isRequired this).

(** The check a class makes of its own before it runs the rules: the type
    of the value for a boolean validator, the parse for a JSON validator,
    none for the other classes. *)
Definition own_check (this : BaseValidator World) (value : JSValue) : bool :=
  match class_of this with
  | IsBoolean => String.eqb (typeof value) "boolean"
  | IsJSON => JSON_parse_ok (ToString value)
  | IsString | IsNumber | IsArray => true
  end.

(** Every rule of the list, called in order on [value] and [field] from
    the world [w], returns; [w'] is the world the last one leaves. *)
Inductive rules_pass (value : JSValue) (field : string)
  : list (Rule World) -> World -> World -> Prop :=
| rules_pass_nil : forall w, rules_pass value field [] w w
| rules_pass_cons : forall rule rest w w1 w2,
    rule value field w = (w1, Returned tt) ->
    rules_pass value field rest w1 w2 ->
    rules_pass value field (rule :: rest) w w2.

(** [next] is [this] after one call of a constraint method of its class. *)
Inductive chained (this : BaseValidator World) : BaseValidator World -> Prop :=
| chained_required : chained this (BaseValidator.required this)
| chained_oneOf : forall allowedValues,
    chained this (BaseValidator.oneOf allowedValues this)
| chained_email :
    class_of this = IsString -> chained this (StringValidator.email this)
| chained_string_min : forall length,
    class_of this = IsString -> chained this (StringValidator.min length this)
| chained_string_max : forall length,
    class_of this = IsString -> chained this (StringValidator.max length this)
| chained_reg : forall mask,
    class_of this = IsString -> chained this (StringValidator.reg mask this)
| chained_number_min : forall minValue,
    class_of this = IsNumber -> chained this (NumberValidator.min minValue this)
| chained_number_max : forall maxValue,
    class_of this = IsNumber -> chained this (NumberValidator.max maxValue this)
| chained_phone :
    class_of this = IsNumber -> chained this (NumberValidator.phone this)
| chained_minLength : forall length,
    class_of this = IsArray -> chained this (ArrayValidator.minLength length this)
| chained_maxLength : forall length,
    class_of this = IsArray -> chained this (ArrayValidator.maxLength length this)
| chained_items : forall validator,
    class_of this = IsArray -> chained this (ArrayValidator.items validator this).

(** [last] is [first] after any number of further constraint calls. *)
Inductive chain (first : BaseValidator World) : BaseValidator World -> Prop :=
| chain_done : chain first first
| chain_more : forall this next,
    chain first this -> chained this next -> chain first next.

(** The elements of the list, at the indices [i], [i + 1], ..., each pass
    [validator.validate(element, field[index])], in order from the world
    [w]; [w'] is the world the last one leaves. *)
Inductive items_pass (validator : BaseValidator World) (field : string)
  : nat -> list JSValue -> World -> World -> Prop :=
| items_pass_nil : forall i w, items_pass validator field i [] w w
| items_pass_cons : forall i element rest w w1 w2 r,
    validate validator element (field ++ "[" ++ string_of_nat i ++ "]") w
      = (w1, Returned r) ->
    items_pass validator field (S i) rest w1 w2 ->
    items_pass validator field i (element :: rest) w w2.

(** The declared fields of the list that [data] has, each pass its
    validator on [data[key]], in order from the world [w]; [w'] is the
    world the last one leaves. A field [data] does not have is passed over. *)
Inductive fields_pass (data : object)
  : list (string * BaseValidator World) -> World -> World -> Prop :=
| fields_pass_nil : forall w, fields_pass data [] w w
| fields_pass_absent : forall key validator rest w w',
    has_property key data = false ->
    fields_pass data rest w w' ->
    fields_pass data ((key, validator) :: rest) w w'
| fields_pass_present : forall key validator rest w w1 w2 r,
    has_property key data = true ->
    validate validator (get_property data key) key w = (w1, Returned r) ->
    fields_pass data rest w1 w2 ->
    fields_pass data ((key, validator) :: rest) w w2.

(** No declared field is both required and absent from [data]. *)
Definition none_missing (entries : list (string * BaseValidator World))
    (data : object) : Prop :=
  forall key validator,
    In (key, validator) entries ->
    has_property key data = true \/ isRequired validator = false.

(** Every key of [data] is declared, where the schema is strict. *)
Definition no_extra_field (this : Schema World) (data : object) : Prop :=
  only this = true ->
  forall key, In key (Object_keys data) -> In key (map fst (schema this)).

(** The two records have the same declared keys, with the same values:
    [key in data] and [data[key]] agree for every key of the list. *)
Definition agree_on (keys : list string) (data1 data2 : object) : Prop :=
  forall key,
    In key keys ->
    has_property key data1 = has_property key data2
    /\ get_property data1 key = get_property data2 key.
End Notions.

(** ** Further notions *)

From Stdlib Require Import Permutation.

Section FurtherNotions.
Context {World : Type} {host : Host}.

(** A rule that leaves the world as it found it and whose outcome does not
    depend on the world. *)
Definition pure_rule (rule : Rule World) : Prop :=
  forall value field w w',
    fst (rule value field w) = w
    /\ snd (rule value field w) = snd (rule value field w').

(** [undefined] and [null]. *)
Definition nullish (value : JSValue) : Prop :=
  value = VUndefined \/ value = VNull.

(** The integers the host holds exactly, and prints in plain decimal:
    between -(2^53 - 1) and 2^53 - 1. *)
Definition safe_integer (n : Z) : Prop :=
  (- 9007199254740991 <= n <= 9007199254740991)%Z.


(** A value whose [length] is [undefined]: a number, a boolean, or a plain
    object with no property called [length]. *)
Definition without_length (value : JSValue) : Prop :=
  match value with
  | VBool _ | VNum _ => True
  | VObj props => assoc "length" props = None
  | VUndefined | VNull | VStr _ | VArr _ => False
  end.

(** The rules the constraint methods of the library push, those of [items]
    for an item validator whose own rules are the library's. *)
Inductive library_rule : Rule World -> Prop :=
| library_required : library_rule BaseValidator.required_rule
| library_oneOf : forall allowedValues,
    library_rule (BaseValidator.oneOf_rule allowedValues)
| library_email : library_rule StringValidator.email_rule
| library_string_min : forall length,
    library_rule (StringValidator.min_rule length)
| library_string_max : forall length,
    library_rule (StringValidator.max_rule length)
| library_reg : forall mask, library_rule (StringValidator.reg_rule mask)
| library_number_min : forall minValue,
    library_rule (NumberValidator.min_rule minValue)
| library_number_max : forall maxValue,
    library_rule (NumberValidator.max_rule maxValue)
| library_phone : library_rule NumberValidator.phone_rule
| library_minLength : forall length,
    library_rule (ArrayValidator.minLength_rule length)
| library_maxLength : forall length,
    library_rule (ArrayValidator.maxLength_rule length)
| library_items : forall validator,
    library_rules (rules validator) ->
    library_rule (ArrayValidator.items_rule validator)
with library_rules : list (Rule World) -> Prop :=
| library_rules_nil : library_rules []
| library_rules_cons : forall rule rest,
    library_rule rule -> library_rules rest -> library_rules (rule :: rest).

(** Any number of indices, each between brackets: [[0]], [[2][11]], or
    nothing. *)
Inductive index_path : string -> Prop :=
| index_path_nil : index_path ""
| index_path_more : forall i rest,
    index_path rest ->
    index_path ("[" ++ string_of_nat i ++ "]" ++ rest).

(** An outcome whose error, if there is one, is one of these: an object with
    a text for message whose field is [field] followed by indices; the
    [TypeError] of reading the length of [undefined] or [null]; or what the
    rule of [items] makes of that [TypeError], an object with its message
    and [undefined] for field. *)
Definition error_under {A : Type} (field : string) (outcome : result A) : Prop :=
  match outcome with
  | Thrown (ErrorObject f m) =>
      (exists path text,
          index_path path /\ f = VStr (field ++ path) /\ m = VStr text)
      \/ (exists v,
             nullish v /\ f = VUndefined
             /\ m = VStr (cannot_read_property v "length"))
  | Thrown (TypeError message) =>
      exists v, nullish v /\ message = cannot_read_property v "length"
  | Returned _ => True
  end.

(** A computation that leaves the world as it found it, whose outcome does
    not depend on the world, and whose errors are under [field]. *)
Definition behaves {A : Type} (field : string) (m : M World A) : Prop :=
  forall w,
    fst (m w) = w
    /\ (forall w', snd (m w) = snd (m w'))
    /\ error_under field (snd (m w)).
End FurtherNotions.

Scheme library_rule_mutual := Minimality for library_rule Sort Prop
  with library_rules_mutual := Minimality for library_rules Sort Prop.





(** * Properties *)

Create HintDb monad_ops.
#[local] Hint Unfold bind ret throw lift catch : monad_ops.

Section RuleSequences.
Context {World : Type}.

(** The loop over a concatenation runs the first list, then the second from
    the world the first left, unless a rule of the first threw. *)
Lemma run_rules_app (pre post : list (Rule World)) value field w :
  BaseValidator.run_rules (pre ++ post)%list value field w =
  match BaseValidator.run_rules pre value field w with
  | (w1, Returned _) => BaseValidator.run_rules post value field w1
  | (w1, Thrown e) => (w1, Thrown e)
  end.
Proof.
  revert w. induction pre as [| rule pre IH]; intro w; simpl.
  - reflexivity.
  - unfold bind. destruct (rule value field w) as [w1 [[] | e]]; auto.
Qed.

Lemma rules_pass_run (rs : list (Rule World)) value field w w' :
  rules_pass value field rs w w' ->
  BaseValidator.run_rules rs value field w = (w', Returned tt).
Proof.
  induction 1 as [w | rule rest w w1 w2 Hrule _ IH]; simpl.
  - reflexivity.
  - unfold bind. rewrite Hrule. exact IH.
Qed.

Lemma run_rules_pass (rs : list (Rule World)) value field w w' u :
  BaseValidator.run_rules rs value field w = (w', Returned u) ->
  rules_pass value field rs w w'.
Proof.
  revert w. induction rs as [| rule rest IH]; intros w H; simpl in H.
  - inversion H; subst. constructor.
  - unfold bind in H.
    destruct (rule value field w) as [w1 [[] | e]] eqn:Hrule; [| discriminate].
    econstructor; eauto.
Qed.

(** The first rule that throws ends the loop with what it threw. *)
Lemma run_rules_first_failure (pre post : list (Rule World))
    (rule : Rule World) value field w w1 w2 e :
  rules_pass value field pre w w1 ->
  rule value field w1 = (w2, Thrown e) ->
  BaseValidator.run_rules (pre ++ rule :: post)%list value field w
  = (w2, Thrown e).
Proof.
  intros Hpre Hrule.
  rewrite run_rules_app, (rules_pass_run _ _ _ _ _ Hpre). simpl.
  unfold bind. now rewrite Hrule.
Qed.

Lemma rules_pass_app (pre post : list (Rule World)) value field w w1 w2 :
  rules_pass value field pre w w1 ->
  rules_pass value field post w1 w2 ->
  rules_pass value field (pre ++ post)%list w w2.
Proof.
  induction 1; simpl; intros; [assumption |].
  econstructor; eauto.
Qed.

(** The inherited [validate] on a value it does not skip. *)
Lemma base_validate_not_skipped (this : BaseValidator World) value field w :
  skipped this value = false ->
  BaseValidator.validate this value field w =
  match BaseValidator.run_rules (rules this) value field w with
  | (w1, Returned _) => (w1, Returned (VBool true))
  | (w1, Thrown e) => (w1, Thrown e)
  end.
Proof.
  unfold skipped, BaseValidator.validate. intros ->. reflexivity.
Qed.

(** The rule of [required] throws on each of the three missing values. *)
Lemma required_rule_missing value field (w : World) :
  missing value ->
  BaseValidator.required_rule value field w =
  (w, Thrown (ValidationError field "Value is required")).
Proof.
  intros [-> | [-> | ->]]; reflexivity.
Qed.
End RuleSequences.

Section Dispatch.
Context {World : Type} {host : Host}.

(** [validate] of any class comes down to the inherited one on a value that
    is not skipped and passes the class's own check. *)
Lemma validate_inherited (this : BaseValidator World) value field :
  skipped this value = false ->
  own_check this value = true ->
  validate this value field = BaseValidator.validate this value field.
Proof.
  unfold skipped, own_check, validate, BooleanValidator.validate,
    JSONValidator.validate.
  destruct (class_of this); intros Hskip Hcheck; try reflexivity;
    rewrite Hskip, Hcheck; reflexivity.
Qed.

(** Every class skips [undefined] when the validator is not required. *)
Lemma validate_skipped (this : BaseValidator World) value field w :
  skipped this value = true ->
  validate this value field w = (w, Returned VUndefined).
Proof.
  unfold skipped, validate, BooleanValidator.validate, JSONValidator.validate,
    BaseValidator.validate.
  intros Hskip. destruct (class_of this); rewrite Hskip; reflexivity.
Qed.

Lemma chained_appends (this next : BaseValidator World) :
  chained this next ->
  class_of next = class_of this
  /\ (isRequired this = true -> isRequired next = true)
  /\ exists rule, rules next = (rules this ++ [rule])%list.
Proof.
  destruct 1; simpl; (split; [reflexivity | split; [auto | eexists; reflexivity]]).
Qed.

(** Once [required] was called, the flag stays and its rule keeps its place. *)
Lemma chain_required (first last : BaseValidator World) :
  chain (BaseValidator.required first) last ->
  class_of last = class_of first
  /\ isRequired last = true
  /\ exists post,
       rules last = (rules first ++ BaseValidator.required_rule :: post)%list.
Proof.
  induction 1 as [| this next _ IH Hstep].
  - simpl. repeat split. exists []. reflexivity.
  - destruct IH as (Hclass & Hreq & post & Hrules).
    destruct (chained_appends _ _ Hstep) as (Hc & Hr & rule & Hnext).
    repeat split.
    + congruence.
    + auto.
    + exists (post ++ [rule])%list. rewrite Hnext, Hrules, <- app_assoc. reflexivity.
Qed.
End Dispatch.

(** ** The rule sequence of a validator *)

Section FieldValidators.
Context {World : Type} {host : Host}.

(** C2, as amended: on a validator on which [required] has not been called,
    [validate(undefined, field)] returns at once, with [undefined], and runs
    no rule: whatever the class and whatever the rules chained before, the
    world is the one it started from. ([null] is not skipped: the rules are
    run on it.) *)
Theorem C2_undefined_skips_every_rule (this : BaseValidator World) field w :
  isRequired this = false ->
  validate this VUndefined field w = (w, Returned VUndefined).
Proof.
  intro Hopt. apply validate_skipped.
  unfold skipped. rewrite Hopt. reflexivity.
Qed.

(** C8, as amended: on a value that is not skipped and passes the class's own
    check (the type check of a boolean validator, the parse of a JSON
    validator; the other classes have none), [validate] runs the rules in the
    order of the list, which is the order the constraint methods were called
    in since each call appends one rule: the first rule that throws decides
    the outcome, from the world the rules before it left, the rules after it
    are not run, and when every rule returns [validate] returns [true]. *)
Theorem C8_rules_run_in_order_first_failure_wins
    (this : BaseValidator World) value field w :
  skipped this value = false ->
  own_check this value = true ->
  (forall pre rule post w1 w2 e,
      rules this = (pre ++ rule :: post)%list ->
      rules_pass value field pre w w1 ->
      rule value field w1 = (w2, Thrown e) ->
      validate this value field w = (w2, Thrown e))
  /\ (forall w1,
         rules_pass value field (rules this) w w1 ->
         validate this value field w = (w1, Returned (VBool true)))
  /\ (forall next,
         chained this next ->
         exists rule, rules next = (rules this ++ [rule])%list).
Proof.
  intros Hskip Hcheck.
  rewrite (validate_inherited this value field Hskip Hcheck).
  rewrite (base_validate_not_skipped this value field w Hskip).
  split; [| split].
  - intros pre rule post w1 w2 e Hrules Hpre Hrule.
    rewrite Hrules, (run_rules_first_failure pre post rule _ _ _ _ _ _ Hpre Hrule).
    reflexivity.
  - intros w1 Hall. rewrite (rules_pass_run _ _ _ _ _ Hall). reflexivity.
  - intros next Hstep. apply (chained_appends _ _ Hstep).
Qed.

(** C9: [validate] has two ways to succeed and they return different values:
    [undefined] when the value is [undefined] and the validator is not
    required, [true] when the rules were run and all returned. *)
Theorem C9_two_success_values (this : BaseValidator World) value field w w1 :
  (isRequired this = false ->
   validate this VUndefined field w = (w, Returned VUndefined))
  /\ (skipped this value = false ->
      own_check this value = true ->
      rules_pass value field (rules this) w w1 ->
      validate this value field w = (w1, Returned (VBool true)))
  /\ VUndefined <> VBool true.
Proof.
  split; [| split].
  - intro Hopt. apply validate_skipped. unfold skipped. now rewrite Hopt.
  - intros Hskip Hcheck Hall.
    rewrite (validate_inherited this value field Hskip Hcheck).
    rewrite (base_validate_not_skipped this value field w Hskip).
    now rewrite (rules_pass_run _ _ _ _ _ Hall).
  - discriminate.
Qed.

(** C1, as amended: let [required] be called on a validator, and any
    constraints be chained after it. When the value is missing ([''], [null]
    or [undefined]), passes the rules chained before [required] and passes
    the class's own check, [validate] fails with [Value is required] and the
    field it was given; that covers the string, number and array validators,
    and a JSON validator on a text that parses. A boolean validator fails on
    the three values with [Value must be a boolean], and a JSON validator on
    a text that does not parse with [Invalid JSON format], both before any
    rule and so whatever the rules chained before [required]. *)
Theorem C1_required_rejects_missing_values
    (first this : BaseValidator World) value field w :
  missing value ->
  chain (BaseValidator.required first) this ->
  (forall w1,
      rules_pass value field (rules first) w w1 ->
      own_check this value = true ->
      validate this value field w
      = (w1, Thrown (ValidationError field "Value is required")))
  /\ (class_of this = IsBoolean ->
      validate this value field w
      = (w, Thrown (ValidationError field "Value must be a boolean")))
  /\ (class_of this = IsJSON ->
      JSON_parse_ok (ToString value) = false ->
      validate this value field w
      = (w, Thrown (ValidationError field "Invalid JSON format"))).
Proof.
  intros Hmiss Hchain.
  destruct (chain_required _ _ Hchain) as (_ & Hreq & post & Hrules).
  assert (Hskip : skipped this value = false).
  { unfold skipped. rewrite Hreq. apply andb_false_r. }
  split; [| split].
  - intros w1 Hfirst Hcheck.
    rewrite (validate_inherited this value field Hskip Hcheck).
    rewrite (base_validate_not_skipped this value field w Hskip), Hrules.
    rewrite (run_rules_first_failure _ post _ _ _ _ _ _ _ Hfirst
               (required_rule_missing value field w1 Hmiss)).
    reflexivity.
  - intro Hclass. unfold validate, BooleanValidator.validate.
    unfold skipped in Hskip. rewrite Hclass, Hskip.
    destruct Hmiss as [-> | [-> | ->]]; reflexivity.
  - intros Hclass Hparse. unfold validate, JSONValidator.validate.
    unfold skipped in Hskip. rewrite Hclass, Hskip, Hparse. reflexivity.
Qed.

(** C7: past the short cut for a skipped value, [BooleanValidator.validate]
    fails with [Value must be a boolean] on every value whose [typeof] is not
    [boolean], whatever the rules and without running any. Only on a boolean
    does it run the inherited rule sequence, on that value: the rules are
    called in the order of the list, the first that throws decides the
    outcome from the world the rules before it left, and when all return the
    answer is [true]. *)
Theorem C7_boolean_type_check_comes_first
    (this : BaseValidator World) value field w :
  skipped this value = false ->
  (typeof value <> "boolean" ->
   BooleanValidator.validate this value field w
   = (w, Thrown (ValidationError field "Value must be a boolean")))
  /\ (typeof value = "boolean" ->
      (forall pre rule post w1 w2 e,
          rules this = (pre ++ rule :: post)%list ->
          rules_pass value field pre w w1 ->
          rule value field w1 = (w2, Thrown e) ->
          BooleanValidator.validate this value field w = (w2, Thrown e))
      /\ (forall w1,
             rules_pass value field (rules this) w w1 ->
             BooleanValidator.validate this value field w
             = (w1, Returned (VBool true)))).
Proof.
  intro Hskip. unfold BooleanValidator.validate.
  pose proof Hskip as Hskip'. unfold skipped in Hskip'. rewrite Hskip'.
  split; intro Htype.
  - apply String.eqb_neq in Htype. rewrite Htype. reflexivity.
  - apply String.eqb_eq in Htype. rewrite Htype. cbn [negb].
    rewrite (base_validate_not_skipped this value field w Hskip).
    split.
    + intros pre rule post w1 w2 e Hrules Hpre Hrule.
      rewrite Hrules,
        (run_rules_first_failure pre post rule _ _ _ _ _ _ Hpre Hrule).
      reflexivity.
    + intros w1 Hall. rewrite (rules_pass_run _ _ _ _ _ Hall). reflexivity.
Qed.

End FieldValidators.

(** ** The rule of [items] *)

Section ArrayItems.
Context {World : Type} {host : Host}.

(** The loop stops at the first element whose validation throws, and throws
    an object with the [field] and the [message] of what it caught. *)
Lemma items_loop_first_failure (validator : BaseValidator World) field
    pre element post i w w1 w2 error :
  items_pass validator field i pre w w1 ->
  validate validator element
    (field ++ "[" ++ string_of_nat (i + List.length pre) ++ "]") w1
  = (w2, Thrown error) ->
  ArrayValidator.items_loop validator (pre ++ element :: post)%list field i w
  = (w2, Thrown (ErrorObject (error_field error) (error_message error))).
Proof.
  induction 1 as [i w | i x rest w wa wb r Hx _ IH];
    cbn [ArrayValidator.items_loop app List.length]; intro Hfail.
  - rewrite Nat.add_0_r in Hfail.
    autounfold with monad_ops. rewrite Hfail. reflexivity.
  - rewrite Nat.add_succ_r in Hfail.
    autounfold with monad_ops. rewrite Hx. apply IH, Hfail.
Qed.

Lemma items_loop_all_pass (validator : BaseValidator World) field
    elems i w w1 :
  items_pass validator field i elems w w1 ->
  ArrayValidator.items_loop validator elems field i w = (w1, Returned tt).
Proof.
  induction 1 as [i w | i x rest w wa wb r Hx _ IH];
    cbn [ArrayValidator.items_loop].
  - reflexivity.
  - autounfold with monad_ops. rewrite Hx. exact IH.
Qed.

(** What the rule of [items] throws for an element that fails, whatever the
    nested validation threw: a [TypeError] comes out as an object whose
    [field] is [undefined]. *)
Lemma items_rule_rethrows (validator : BaseValidator World) field
    pre element post w w1 w2 error :
  items_pass validator field 0 pre w w1 ->
  validate validator element
    (field ++ "[" ++ string_of_nat (List.length pre) ++ "]") w1
  = (w2, Thrown error) ->
  ArrayValidator.items_rule validator (VArr (pre ++ element :: post)) field w
  = (w2, Thrown (ErrorObject (error_field error) (error_message error))).
Proof.
  intros Hpre Hfail. unfold ArrayValidator.items_rule.
  cbn [length_of ArrayValidator.elements]. unfold bind at 1, lift.
  apply items_loop_first_failure with (w1 := w1); assumption.
Qed.

(** [validate] of an array validator whose last rule is that of [items], on
    an array the rules before it pass. *)
Lemma validate_items_last (validator this : BaseValidator World) elems field
    w0 w :
  class_of this = IsArray ->
  rules_pass (VArr elems) field (rules this) w0 w ->
  validate (ArrayValidator.items validator this) (VArr elems) field w0
  = match ArrayValidator.items_rule validator (VArr elems) field w with
    | (w1, Returned _) => (w1, Returned (VBool true))
    | (w1, Thrown e) => (w1, Thrown e)
    end.
Proof.
  intros Hclass Hbefore.
  rewrite validate_inherited;
    [| reflexivity | unfold own_check; simpl; now rewrite Hclass].
  rewrite base_validate_not_skipped by reflexivity.
  cbn [rules ArrayValidator.items].
  rewrite run_rules_app, (rules_pass_run _ _ _ _ _ Hbefore).
  cbn [BaseValidator.run_rules]. unfold bind, ret.
  destruct (ArrayValidator.items_rule validator (VArr elems) field w)
    as [w1 [[] | e]]; reflexivity.
Qed.

(** C5: let [items(itemValidator)] be called on an array validator, and an
    array pass the rules chained before. [validate] then validates the
    elements in order, the element at index [i] under the name [field[i]].
    The first element whose validation fails ends the validation of the
    array: the elements after it are not validated, and the error thrown has
    the field and the message of the nested one, unchanged. When every
    element passes, [validate] returns [true]. *)
Theorem C5_items_reports_the_first_failing_element
    (validator this : BaseValidator World) elems field w0 w :
  class_of this = IsArray ->
  rules_pass (VArr elems) field (rules this) w0 w ->
  (forall pre element post w1 w2 nested_field message,
      elems = (pre ++ element :: post)%list ->
      items_pass validator field 0 pre w w1 ->
      validate validator element
        (field ++ "[" ++ string_of_nat (List.length pre) ++ "]") w1
      = (w2, Thrown (ErrorObject nested_field message)) ->
      validate (ArrayValidator.items validator this) (VArr elems) field w0
      = (w2, Thrown (ErrorObject nested_field message)))
  /\ (forall w1,
         items_pass validator field 0 elems w w1 ->
         validate (ArrayValidator.items validator this) (VArr elems) field w0
         = (w1, Returned (VBool true)))
  /\ itemValidator (ArrayValidator.items validator this) = Some validator.
Proof.
  intros Hclass Hbefore.
  rewrite (validate_items_last validator this elems field w0 w Hclass Hbefore).
  split; [| split].
  - intros pre element post w1 w2 nested_field message -> Hpre Hfail.
    rewrite (items_rule_rethrows _ _ _ _ post _ _ _ _ Hpre Hfail).
    reflexivity.
  - intros w1 Hall. unfold ArrayValidator.items_rule.
    cbn [length_of ArrayValidator.elements]. unfold bind at 1, lift.
    rewrite (items_loop_all_pass _ _ _ _ _ _ Hall). reflexivity.
  - reflexivity.
Qed.
End ArrayItems.

(** ** Schemas *)

Section Sequencing.
Context {World A B : Type}.

Lemma bind_returned (m : M World A) (k : A -> M World B) w w' a :
  m w = (w', Returned a) -> bind m k w = k a w'.
Proof. unfold bind. now intros ->. Qed.

Lemma bind_thrown (m : M World A) (k : A -> M World B) w w' e :
  m w = (w', Thrown e) -> bind m k w = (w', Thrown e).
Proof. unfold bind. now intros ->. Qed.
End Sequencing.

Section AssociationLists.
Context {A : Type}.

Lemma includes_key_In (keys : list string) key :
  includes_key keys key = true <-> In key keys.
Proof.
  unfold includes_key. rewrite existsb_exists. split.
  - intros (k & Hin & Heq). apply String.eqb_eq in Heq. now subst.
  - intro Hin. exists key. split; [assumption | apply String.eqb_refl].
Qed.

(** In a map whose keys are distinct, [get] finds each entry. *)
Lemma assoc_In (entries : list (string * A)) key a :
  NoDup (map fst entries) ->
  In (key, a) entries ->
  assoc key entries = Some a.
Proof.
  induction entries as [| [k b] rest IH]; simpl; intros Hnd Hin.
  - contradiction.
  - inversion Hnd as [| ? ? Hfresh Hrest]; subst.
    destruct Hin as [Heq | Hin].
    + inversion Heq; subst. now rewrite String.eqb_refl.
    + destruct (String.eqb_spec key k) as [-> | _].
      * exfalso. apply Hfresh. apply (in_map fst) in Hin. exact Hin.
      * apply IH; assumption.
Qed.
End AssociationLists.

Section Schemas.
Context {World : Type} {host : Host}.

(** The strict check lets a record through when each of its keys is
    declared, and whenever the schema is not strict. *)
Lemma reject_extra_fields_none (this : Schema World) data w :
  no_extra_field this data ->
  Schema.reject_extra_fields this (map fst (schema this)) (Object_keys data) w
  = (w, Returned tt).
Proof.
  unfold no_extra_field, Schema.reject_extra_fields.
  destruct (only this); [| reflexivity].
  intro Hall. specialize (Hall eq_refl).
  induction (Object_keys data) as [| key keys IH]; simpl.
  - reflexivity.
  - assert (Hkey : includes_key (map fst (schema this)) key = true).
    { apply includes_key_In, Hall. now left. }
    rewrite Hkey. simpl. apply IH. intros k Hk. apply Hall. now right.
Qed.

(** The strict check stops at the first key that is not declared. *)
Lemma reject_extra_fields_first (this : Schema World) dataKeys pre extra post w :
  only this = true ->
  dataKeys = (pre ++ extra :: post)%list ->
  (forall key, In key pre -> In key (map fst (schema this))) ->
  ~ In extra (map fst (schema this)) ->
  Schema.reject_extra_fields this (map fst (schema this)) dataKeys w
  = (w, Thrown (ValidationError extra
                  ("Unexpected field '" ++ extra ++ "' not defined in schema"))).
Proof.
  unfold Schema.reject_extra_fields. intros -> -> Hpre Hextra.
  induction pre as [| key pre IH]; cbn [app filter].
  - assert (Hkey : includes_key (map fst (schema this)) extra = false).
    { apply not_true_is_false. intro H. apply Hextra, includes_key_In, H. }
    rewrite Hkey. reflexivity.
  - assert (Hkey : includes_key (map fst (schema this)) key = true).
    { apply includes_key_In, Hpre. now left. }
    rewrite Hkey. cbn [negb]. apply IH. intros k Hk. apply Hpre. now right.
Qed.

Lemma require_fields_none (entries : list (string * BaseValidator World)) data w :
  none_missing entries data ->
  Schema.require_fields entries data w = (w, Returned tt).
Proof.
  unfold none_missing.
  induction entries as [| [key validator] rest IH]; simpl; intro Hnone.
  - reflexivity.
  - destruct (Hnone key validator (or_introl eq_refl)) as [-> | ->];
      [| rewrite andb_false_r]; simpl; apply IH; intros k v Hin;
      apply Hnone; now right.
Qed.

Lemma require_fields_first (pre post : list (string * BaseValidator World))
    key validator data w :
  none_missing pre data ->
  has_property key data = false ->
  isRequired validator = true ->
  Schema.require_fields (pre ++ (key, validator) :: post) data w
  = (w, Thrown (ValidationError key "Field is required")).
Proof.
  unfold none_missing.
  induction pre as [| [k v] pre IH]; simpl; intros Hnone Habsent Hreq.
  - rewrite Habsent, Hreq. reflexivity.
  - destruct (Hnone k v (or_introl eq_refl)) as [-> | ->];
      [| rewrite andb_false_r]; simpl; apply IH; auto.
Qed.

(** The loop over the keys, on entries the map returns for their keys. *)
Lemma validate_fields_pass (this : Schema World) data entries w w' :
  (forall key validator,
      In (key, validator) entries -> assoc key (schema this) = Some validator) ->
  fields_pass data entries w w' ->
  Schema.validate_fields this (map fst entries) data w = (w', Returned tt).
Proof.
  intros Hget Hpass.
  induction Hpass as [w | key validator rest w w' Habsent _ IH
                        | key validator rest w w1 w2 r Hpresent Hvalid _ IH];
    cbn [map fst Schema.validate_fields].
  - reflexivity.
  - rewrite Habsent. unfold bind at 1, ret at 1.
    apply IH. intros k v Hin. apply Hget. now right.
  - rewrite Hpresent, (Hget key validator (or_introl eq_refl)).
    unfold bind, ret. rewrite Hvalid.
    apply IH. intros k v Hin. apply Hget. now right.
Qed.

Lemma validate_fields_first_failure (this : Schema World) data
    pre key validator post w w1 w2 e :
  (forall k v,
      In (k, v) (pre ++ [(key, validator)])%list ->
      assoc k (schema this) = Some v) ->
  fields_pass data pre w w1 ->
  has_property key data = true ->
  validate validator (get_property data key) key w1 = (w2, Thrown e) ->
  Schema.validate_fields this (map fst (pre ++ (key, validator) :: post)) data w
  = (w2, Thrown e).
Proof.
  intros Hget Hpass Hpresent Hfail.
  induction Hpass as [w | k v rest w w' Habsent _ IH
                        | k v rest w wa wb r Hp Hvalid _ IH];
    cbn [app map fst Schema.validate_fields].
  - rewrite Hpresent, (Hget key validator (or_introl eq_refl)).
    unfold bind, ret. rewrite Hfail. reflexivity.
  - rewrite Habsent. unfold bind at 1, ret at 1.
    apply IH; [| assumption]. intros k' v' Hin. apply Hget. now right.
  - rewrite Hp, (Hget k v (or_introl eq_refl)).
    unfold bind, ret. rewrite Hvalid.
    apply IH; [| assumption]. intros k' v' Hin. apply Hget. now right.
Qed.

(** C4: in strict mode, a record with a key the schema does not declare is
    rejected for the first such key in the order [Object.keys] lists the
    record's keys, with that key as the field and the message
    [Unexpected field '<key>' not defined in schema]; no validator has run,
    the world is untouched, whatever the declared fields hold. *)
Theorem C4_strict_mode_reports_the_first_extra_key
    (this : Schema World) data pre extra post w :
  only this = true ->
  Object_keys data = (pre ++ extra :: post)%list ->
  (forall key, In key pre -> In key (map fst (schema this))) ->
  ~ In extra (map fst (schema this)) ->
  Schema.validate this data w
  = (w, Thrown (ValidationError extra
                  ("Unexpected field '" ++ extra ++ "' not defined in schema"))).
Proof.
  intros Honly Hkeys Hpre Hextra. unfold Schema.validate.
  apply bind_thrown.
  apply (reject_extra_fields_first this _ pre extra post w Honly Hkeys Hpre Hextra).
Qed.

(** C3, as amended: once the strict check is passed, [Schema.validate]
    first looks, in the order of the entries of the schema's map, for a
    declared field that is required and that [key in record] does not find,
    and fails for the first one with [Field is required] and its name,
    before any validator has been called (the world is untouched, whatever
    the fields found hold). Only when there is none does it validate the
    fields [key in record] finds, in the same order: the first validator
    that throws decides the outcome and the fields after it are not
    validated; when all return, the result is [Validation successful]. The
    order is that of [Object.entries] on the definition, which is the order
    the fields were written in only when no key is an array index
    ([object_literal_entries]); [in] finds inherited properties as well as
    own ones. *)
Theorem C3_required_fields_first_then_fields_in_order
    (this : Schema World) data w :
  no_extra_field this data ->
  (forall pre key validator post,
      schema this = (pre ++ (key, validator) :: post)%list ->
      none_missing pre data ->
      has_property key data = false ->
      isRequired validator = true ->
      Schema.validate this data w
      = (w, Thrown (ValidationError key "Field is required")))
  /\ (none_missing (schema this) data ->
      NoDup (map fst (schema this)) ->
      (forall pre key validator post w1 w2 e,
          schema this = (pre ++ (key, validator) :: post)%list ->
          fields_pass data pre w w1 ->
          has_property key data = true ->
          validate validator (get_property data key) key w1 = (w2, Thrown e) ->
          Schema.validate this data w = (w2, Thrown e))
      /\ (forall w1,
             fields_pass data (schema this) w w1 ->
             Schema.validate this data w
             = (w1, Returned (VStr "Validation successful")))).
Proof.
  intros Hstrict. unfold Schema.validate.
  rewrite (bind_returned _ _ _ _ _ (reject_extra_fields_none this data w Hstrict)).
  split.
  - intros pre key validator post Hschema Hpre Habsent Hreq.
    apply bind_thrown. rewrite Hschema.
    apply require_fields_first; assumption.
  - intros Hnone Hnodup.
    rewrite (bind_returned _ _ _ _ _ (require_fields_none _ data w Hnone)).
    split.
    + intros pre key validator post w1 w2 e Hschema Hpass Hpresent Hfail.
      apply bind_thrown.
      assert (Hget : forall k v,
                 In (k, v) (pre ++ [(key, validator)])%list ->
                 assoc k (schema this) = Some v).
      { intros k v Hin. apply assoc_In; [assumption |].
        rewrite Hschema. apply in_app_or in Hin. apply in_or_app.
        destruct Hin as [Hin | [Heq | []]]; [now left | right; now left]. }
      rewrite Hschema.
      apply validate_fields_first_failure with (w1 := w1); assumption.
    + intros w1 Hpass.
      rewrite (bind_returned _ _ w w1 tt); [reflexivity |].
      apply validate_fields_pass; [| assumption].
      intros k v Hin. apply assoc_In; assumption.
Qed.
End Schemas.

(** ** Undeclared keys *)

Section UndeclaredKeys.
Context {World : Type} {host : Host}.

Lemma bind_agree {A B : Type} (m1 m2 : M World A) (k1 k2 : A -> M World B) :
  (forall w, m1 w = m2 w) ->
  (forall a w, k1 a w = k2 a w) ->
  forall w, bind m1 k1 w = bind m2 k2 w.
Proof.
  intros Hm Hk w. unfold bind. rewrite Hm.
  destruct (m2 w) as [w' [a | e]]; auto.
Qed.

Lemma require_fields_agree (entries : list (string * BaseValidator World))
    data1 data2 :
  agree_on (map fst entries) data1 data2 ->
  forall w,
    Schema.require_fields entries data1 w = Schema.require_fields entries data2 w.
Proof.
  induction entries as [| [key validator] rest IH]; simpl; intros Hagree w.
  - reflexivity.
  - destruct (Hagree key (or_introl eq_refl)) as [-> _].
    destruct (negb (has_property key data2) && isRequired validator);
      [reflexivity |].
    apply IH. intros k Hk. apply Hagree. now right.
Qed.

Lemma validate_fields_agree (this : Schema World) keys data1 data2 :
  agree_on keys data1 data2 ->
  forall w,
    Schema.validate_fields this keys data1 w
    = Schema.validate_fields this keys data2 w.
Proof.
  induction keys as [| key rest IH]; cbn [Schema.validate_fields];
    intros Hagree w.
  - reflexivity.
  - destruct (Hagree key (or_introl eq_refl)) as [-> ->].
    apply bind_agree; [reflexivity |].
    intros _ w'. apply IH. intros k Hk. apply Hagree. now right.
Qed.

(** C10: a schema that is not strict gives the same outcome, from the same
    world, on two records that agree on the declared keys: what a record
    holds under any other key is neither validated nor a reason to fail. *)
Theorem C10_undeclared_keys_are_ignored_when_not_strict
    (this : Schema World) data1 data2 w :
  only this = false ->
  agree_on (map fst (schema this)) data1 data2 ->
  Schema.validate this data1 w = Schema.validate this data2 w.
Proof.
  intros Honly Hagree. unfold Schema.validate.
  apply bind_agree.
  - intro w0. unfold Schema.reject_extra_fields. rewrite Honly. reflexivity.
  - intros _ w0. apply bind_agree.
    + apply require_fields_agree, Hagree.
    + intros _ w1. apply bind_agree; [| reflexivity].
      apply validate_fields_agree, Hagree.
Qed.
End UndeclaredKeys.

(** * Further properties of the code *)

Section Evaluation.
Context {World : Type} {host : Host}.

(** [validate] on a value other than [undefined] that passes the class's
    own check: the loop over the rules, then [true]. *)
Lemma validate_runs_rules (this : BaseValidator World) value field w :
  strict_equals value VUndefined = false ->
  own_check this value = true ->
  validate this value field w
  = match BaseValidator.run_rules (rules this) value field w with
    | (w1, Returned _) => (w1, Returned (VBool true))
    | (w1, Thrown e) => (w1, Thrown e)
    end.
Proof.
  intros Hdef Hcheck.
  assert (Hskip : skipped this value = false).
  { unfold skipped. now rewrite Hdef. }
  rewrite (validate_inherited this value field Hskip Hcheck).
  apply base_validate_not_skipped, Hskip.
Qed.

Lemma lt_numbers (a b : Z) : lt (VNum a) (VNum b) = (a <? b)%Z.
Proof. reflexivity. Qed.

Lemma lt_undefined_l (b : JSValue) : lt VUndefined b = false.
Proof. unfold lt. simpl. destruct (ToPrimitive b); reflexivity. Qed.

Lemma lt_undefined_r (a : JSValue) : lt a VUndefined = false.
Proof.
  unfold lt. destruct (ToPrimitive a) as [| | [] | | | |]; reflexivity.
Qed.
End Evaluation.

Section Bounds.
Context {World : Type} {host : Host}.

(** A pair of rules that compare one number read off the value with a lower
    and an upper bound, as [min] and [max] do. *)
Lemma bounded_pair (lower upper : Rule World) (e_low e_high : thrown)
    (x n m : Z) value field w :
  lower value field w
  = (if (x <? n)%Z then (w, Thrown e_low) else (w, Returned tt)) ->
  upper value field w
  = (if (m <? x)%Z then (w, Thrown e_high) else (w, Returned tt)) ->
  (BaseValidator.run_rules [lower; upper] value field w = (w, Returned tt)
   <-> (n <= x <= m)%Z)
  /\ ((x < n)%Z ->
      BaseValidator.run_rules [lower; upper] value field w = (w, Thrown e_low))
  /\ ((n <= x)%Z -> (m < x)%Z ->
      BaseValidator.run_rules [lower; upper] value field w = (w, Thrown e_high)).
Proof.
  intros Hlow Hhigh. cbn [BaseValidator.run_rules]. unfold bind, ret.
  rewrite Hlow.
  destruct (Z.ltb_spec x n) as [Hlt | Hge].
  - split; [| split].
    + split; [discriminate | lia].
    + reflexivity.
    + lia.
  - rewrite Hhigh. destruct (Z.ltb_spec m x) as [Hgt | Hle].
    + split; [| split].
      * split; [discriminate | lia].
      * lia.
      * reflexivity.
    + split; [| split].
      * split; [lia | reflexivity].
      * lia.
      * lia.
Qed.
End Bounds.

Section LengthAndRange.
Context {World : Type} {host : Host}.

(** The outcome of [validate] follows that of the loop over the rules. *)
Lemma validate_of_run_rules (this : BaseValidator World) value field w :
  strict_equals value VUndefined = false ->
  own_check this value = true ->
  (validate this value field w = (w, Returned (VBool true))
   <-> BaseValidator.run_rules (rules this) value field w = (w, Returned tt))
  /\ (forall e,
         BaseValidator.run_rules (rules this) value field w = (w, Thrown e) ->
         validate this value field w = (w, Thrown e)).
Proof.
  intros Hdef Hcheck.
  rewrite (validate_runs_rules this value field w Hdef Hcheck).
  destruct (BaseValidator.run_rules (rules this) value field w)
    as [w1 [[] | e1]]; split.
  - split; intro H; inversion H; reflexivity.
  - intros e H. discriminate H.
  - split; intro H; discriminate H.
  - intros e H. inversion H. reflexivity.
Qed.

(** [string().min(n).max(m)] on a string, for bounds that are safe
    integers: the bounds are inclusive. The string passes exactly when its
    length lies between [n] and [m]; a string that is too short gets the
    message of [min], one that is long enough and too long the message of
    [max]. *)
Theorem string_length_bounds_are_inclusive (s : string) (n m : Z) field
    (w : World) :
  safe_integer n ->
  safe_integer m ->
  (validate (StringValidator.max m (StringValidator.min n Validator.string))
     (VStr s) field w
   = (w, Returned (VBool true))
   <-> (n <= Z.of_nat (String.length s) <= m)%Z)
  /\ ((Z.of_nat (String.length s) < n)%Z ->
      validate (StringValidator.max m (StringValidator.min n Validator.string))
        (VStr s) field w
      = (w, Thrown (ValidationError field
                      ("Value must be at least " ++ string_of_Z n
                         ++ " characters long"))))
  /\ ((n <= Z.of_nat (String.length s))%Z ->
      (m < Z.of_nat (String.length s))%Z ->
      validate (StringValidator.max m (StringValidator.min n Validator.string))
        (VStr s) field w
      = (w, Thrown (ValidationError field
                      ("Value must be no more than " ++ string_of_Z m
                         ++ " characters long")))).
Proof.
  intros _ _.
  destruct (validate_of_run_rules
              (StringValidator.max m (StringValidator.min n Validator.string))
              (VStr s) field w eq_refl eq_refl) as [Hok Hfail].
  destruct (bounded_pair (StringValidator.min_rule n) (StringValidator.max_rule m)
              (ValidationError field
                 ("Value must be at least " ++ string_of_Z n
                    ++ " characters long"))
              (ValidationError field
                 ("Value must be no more than " ++ string_of_Z m
                    ++ " characters long"))
              (Z.of_nat (String.length s)) n m (VStr s) field w)
    as (Hin & Hlow & Hhigh).
  - unfold StringValidator.min_rule, bind, lift, throw, ret.
    cbn [length_of]. rewrite lt_numbers.
    destruct (Z.of_nat (String.length s) <? n)%Z; reflexivity.
  - unfold StringValidator.max_rule, bind, lift, throw, ret.
    cbn [length_of]. rewrite lt_numbers.
    destruct (m <? Z.of_nat (String.length s))%Z; reflexivity.
  - split; [| split].
    + rewrite Hok. exact Hin.
    + intro H. apply Hfail, Hlow, H.
    + intros H1 H2. apply Hfail, Hhigh; assumption.
Qed.

(** [array().minLength(n).maxLength(m)] on an array, for bounds that are
    safe integers: the bounds are inclusive, and the lower one is reported
    first. *)
Theorem array_length_bounds_are_inclusive (elems : list JSValue) (n m : Z)
    field (w : World) :
  safe_integer n ->
  safe_integer m ->
  (validate
     (ArrayValidator.maxLength m (ArrayValidator.minLength n Validator.array))
     (VArr elems) field w
   = (w, Returned (VBool true))
   <-> (n <= Z.of_nat (List.length elems) <= m)%Z)
  /\ ((Z.of_nat (List.length elems) < n)%Z ->
      validate
        (ArrayValidator.maxLength m (ArrayValidator.minLength n Validator.array))
        (VArr elems) field w
      = (w, Thrown (ValidationError field
                      ("Array must contain at least " ++ string_of_Z n
                         ++ " items"))))
  /\ ((n <= Z.of_nat (List.length elems))%Z ->
      (m < Z.of_nat (List.length elems))%Z ->
      validate
        (ArrayValidator.maxLength m (ArrayValidator.minLength n Validator.array))
        (VArr elems) field w
      = (w, Thrown (ValidationError field
                      ("Array must contain no more than " ++ string_of_Z m
                         ++ " items")))).
Proof.
  intros _ _.
  destruct (validate_of_run_rules
              (ArrayValidator.maxLength m
                 (ArrayValidator.minLength n Validator.array))
              (VArr elems) field w eq_refl eq_refl) as [Hok Hfail].
  destruct (bounded_pair (ArrayValidator.minLength_rule n)
              (ArrayValidator.maxLength_rule m)
              (ValidationError field
                 ("Array must contain at least " ++ string_of_Z n ++ " items"))
              (ValidationError field
                 ("Array must contain no more than " ++ string_of_Z m
                    ++ " items"))
              (Z.of_nat (List.length elems)) n m (VArr elems) field w)
    as (Hin & Hlow & Hhigh).
  - unfold ArrayValidator.minLength_rule, bind, lift, throw, ret.
    cbn [length_of]. rewrite lt_numbers.
    destruct (Z.of_nat (List.length elems) <? n)%Z; reflexivity.
  - unfold ArrayValidator.maxLength_rule, bind, lift, throw, ret.
    cbn [length_of]. rewrite lt_numbers.
    destruct (m <? Z.of_nat (List.length elems))%Z; reflexivity.
  - split; [| split].
    + rewrite Hok. exact Hin.
    + intro H. apply Hfail, Hlow, H.
    + intros H1 H2. apply Hfail, Hhigh; assumption.
Qed.

(** [<] between a value that converts to the number [x] without being a
    string, and a number. *)
Lemma lt_ToNumber_l value x b :
  ToNumber value = Some x -> lt value (VNum b) = (x <? b)%Z.
Proof.
  destruct value as [| | [] | y | | |]; simpl; intro H; inversion H; reflexivity.
Qed.

Lemma lt_ToNumber_r value x a :
  ToNumber value = Some x -> lt (VNum a) value = (a <? x)%Z.
Proof.
  destruct value as [| | [] | y | | |]; simpl; intro H; inversion H; reflexivity.
Qed.

(** [number().min(a).max(b)], for bounds that are safe integers, on a
    number that is a safe integer, and on [null] and the booleans, which [<]
    and [>] read as 0, 0 and 1: the value passes exactly when the integer it
    stands for lies between [a] and [b], bounds included; below [a] the
    message is that of [min], above [b] that of [max]. No rule asks whether
    the value is a number. (The numbers that are not integers, [NaN] among
    them, are not values of this model.) *)
Theorem number_range_is_inclusive_and_untyped (value : JSValue) (x a b : Z)
    field (w : World) :
  ToNumber value = Some x ->
  safe_integer x ->
  safe_integer a ->
  safe_integer b ->
  (validate (NumberValidator.max b (NumberValidator.min a Validator.number))
     value field w
   = (w, Returned (VBool true))
   <-> (a <= x <= b)%Z)
  /\ ((x < a)%Z ->
      validate (NumberValidator.max b (NumberValidator.min a Validator.number))
        value field w
      = (w, Thrown (ValidationError field
                      ("Value must be greater than or equal to "
                         ++ string_of_Z a))))
  /\ ((a <= x)%Z -> (b < x)%Z ->
      validate (NumberValidator.max b (NumberValidator.min a Validator.number))
        value field w
      = (w, Thrown (ValidationError field
                      ("Value must be less than or equal to "
                         ++ string_of_Z b)))).
Proof.
  intros Hnum _ _ _.
  assert (Hdef : strict_equals value VUndefined = false).
  { destruct value; try reflexivity. discriminate Hnum. }
  destruct (validate_of_run_rules
              (NumberValidator.max b (NumberValidator.min a Validator.number))
              value field w Hdef eq_refl) as [Hok Hfail].
  destruct (bounded_pair (NumberValidator.min_rule a) (NumberValidator.max_rule b)
              (ValidationError field
                 ("Value must be greater than or equal to " ++ string_of_Z a))
              (ValidationError field
                 ("Value must be less than or equal to " ++ string_of_Z b))
              x a b value field w)
    as (Hin & Hlow & Hhigh).
  - unfold NumberValidator.min_rule, throw, ret.
    rewrite (lt_ToNumber_l value x a Hnum).
    destruct (x <? a)%Z; reflexivity.
  - unfold NumberValidator.max_rule, throw, ret.
    rewrite (lt_ToNumber_r value x b Hnum).
    destruct (b <? x)%Z; reflexivity.
  - split; [| split].
    + rewrite Hok. exact Hin.
    + intro H. apply Hfail, Hlow, H.
    + intros H1 H2. apply Hfail, Hhigh; assumption.
Qed.
End LengthAndRange.

Section Membership.
Context {World : Type} {host : Host}.

End Membership.

Section ValuesWithoutLength.
Context {World : Type} {host : Host}.

(** The rules that read [value.length] ask nothing about the type of the
    value: on a number, a boolean, or a plain object with no property called
    [length], that length is [undefined] and the comparisons are false, so
    [min] and [max] of a string validator and [minLength] and [maxLength] of
    an array validator let it pass whatever the bound, and the rule of
    [items] lets it pass without calling the item validator, whatever that
    validator is. *)
Theorem length_rules_accept_values_without_length
    (n : Z) (validator : BaseValidator World) value field (w : World) :
  without_length value ->
  StringValidator.min_rule n value field w = (w, Returned tt)
  /\ StringValidator.max_rule n value field w = (w, Returned tt)
  /\ ArrayValidator.minLength_rule n value field w = (w, Returned tt)
  /\ ArrayValidator.maxLength_rule n value field w = (w, Returned tt)
  /\ ArrayValidator.items_rule validator value field w = (w, Returned tt).
Proof.
  intro Hnone.
  assert (Hlen : length_of value = Returned VUndefined).
  { destruct value; try contradiction; reflexivity. }
  unfold StringValidator.min_rule, StringValidator.max_rule,
    ArrayValidator.minLength_rule, ArrayValidator.maxLength_rule,
    ArrayValidator.items_rule, bind, lift.
  rewrite Hlen, lt_undefined_l, lt_undefined_r.
  repeat split.
  destruct value; try contradiction; reflexivity.
Qed.

(** On [undefined] and [null] the same five rules do not reject the value
    with a ValidationError: reading [value.length] throws the host's
    [TypeError], which leaves the rule as it is, and the item validator is
    not called. *)
Theorem length_rules_throw_a_TypeError_on_nullish_values
    (n : Z) (validator : BaseValidator World) value field (w : World) :
  nullish value ->
  StringValidator.min_rule n value field w
  = (w, Thrown (TypeError (cannot_read_property value "length")))
  /\ StringValidator.max_rule n value field w
     = (w, Thrown (TypeError (cannot_read_property value "length")))
  /\ ArrayValidator.minLength_rule n value field w
     = (w, Thrown (TypeError (cannot_read_property value "length")))
  /\ ArrayValidator.maxLength_rule n value field w
     = (w, Thrown (TypeError (cannot_read_property value "length")))
  /\ ArrayValidator.items_rule validator value field w
     = (w, Thrown (TypeError (cannot_read_property value "length"))).
Proof.
  intros [-> | ->]; repeat split.
Qed.
End ValuesWithoutLength.

Section Required.
Context {World : Type} {host : Host}.

(** The loop over rules that end with the rule of [required], once and
    twice: the second copy is reached only by a value the first let through,
    and lets it through as well. *)
Lemma run_rules_required_twice (rs : list (Rule World)) value field w :
  BaseValidator.run_rules
    ((rs ++ [BaseValidator.required_rule]) ++ [BaseValidator.required_rule])%list
    value field w
  = BaseValidator.run_rules (rs ++ [BaseValidator.required_rule])%list
      value field w.
Proof.
  rewrite (run_rules_app (rs ++ [BaseValidator.required_rule])).
  rewrite (run_rules_app rs).
  destruct (BaseValidator.run_rules rs value field w) as [w1 [[] | e]];
    [| reflexivity].
  cbn [BaseValidator.run_rules]. unfold bind, ret, BaseValidator.required_rule.
  destruct (strict_equals value VUndefined || strict_equals value VNull
            || strict_equals value (VStr "")); reflexivity.
Qed.

(** Calling [required()] a second time changes nothing [validate] can show:
    for every class, every value and every rules chained before, the outcome
    and the world are the same as after one call. *)
Theorem required_twice_validates_as_required_once
    (this : BaseValidator World) value field (w : World) :
  validate (BaseValidator.required (BaseValidator.required this)) value field w
  = validate (BaseValidator.required this) value field w.
Proof.
  assert (Hbase :
            BaseValidator.validate
              (BaseValidator.required (BaseValidator.required this))
              value field w
            = BaseValidator.validate (BaseValidator.required this)
                value field w).
  { unfold BaseValidator.validate.
    cbn [isRequired rules BaseValidator.required].
    destruct (strict_equals value VUndefined && negb true); [reflexivity |].
    unfold bind. rewrite run_rules_required_twice. reflexivity. }
  unfold validate, BooleanValidator.validate, JSONValidator.validate.
  cbn [class_of isRequired BaseValidator.required].
  destruct (class_of this); try exact Hbase;
    destruct (strict_equals value VUndefined && negb true); try reflexivity.
  - destruct (negb (String.eqb (typeof value) "boolean"));
      [reflexivity | exact Hbase].
  - destruct (negb (JSON_parse_ok (ToString value)));
      [reflexivity | exact Hbase].
Qed.

(** A validator built from a factory carries the flag only if [required]
    was called on the way, and then its rule is in the list. *)
Lemma built_required_has_the_rule (c : validator_class)
    (this : BaseValidator World) :
  chain (BaseValidator.new c) this ->
  class_of this = c
  /\ (isRequired this = true ->
      exists pre post,
        rules this = (pre ++ BaseValidator.required_rule :: post)%list).
Proof.
  induction 1 as [| this next _ [Hclass IH] Hstep].
  - split; [reflexivity | discriminate].
  - split.
    + destruct (chained_appends _ _ Hstep) as (Hc & _). congruence.
    + destruct Hstep; cbn [isRequired rules BaseValidator.required
                             BaseValidator.oneOf StringValidator.email
                             StringValidator.min StringValidator.max
                             StringValidator.reg NumberValidator.min
                             NumberValidator.max NumberValidator.phone
                             ArrayValidator.minLength ArrayValidator.maxLength
                             ArrayValidator.items push];
        intro Hreq;
        try (destruct (IH Hreq) as (pre & post & ->);
             eexists pre, _; rewrite <- app_assoc; reflexivity).
      exists (rules this), []. reflexivity.
Qed.

(** A loop that holds the rule of [required] never lets a missing value
    through: a rule before it throws, or it does. *)
Lemma run_rules_with_required_throws (pre post : list (Rule World))
    value field w :
  missing value ->
  exists w' e,
    BaseValidator.run_rules (pre ++ BaseValidator.required_rule :: post)%list
      value field w
    = (w', Thrown e).
Proof.
  intro Hmiss. rewrite run_rules_app.
  destruct (BaseValidator.run_rules pre value field w) as [w1 [[] | e]].
  - cbn [BaseValidator.run_rules]. unfold bind.
    rewrite (required_rule_missing value field w1 Hmiss). eauto.
  - eauto.
Qed.

(** A validator built from a factory by any chain of constraint calls, one
    of them [required()], never accepts [''], [null] or [undefined],
    wherever in the chain [required()] stands: [validate] throws, be it the
    class's own check, a rule chained before [required], or its rule. *)
Theorem required_validator_never_accepts_a_missing_value
    (c : validator_class) (this : BaseValidator World) value field (w : World) :
  chain (BaseValidator.new c) this ->
  isRequired this = true ->
  missing value ->
  exists w' e, validate this value field w = (w', Thrown e).
Proof.
  intros Hchain Hreq Hmiss.
  destruct (built_required_has_the_rule c this Hchain) as [_ Hrule].
  destruct (Hrule Hreq) as (pre & post & Hrules).
  assert (Hskip : skipped this value = false).
  { unfold skipped. rewrite Hreq. apply andb_false_r. }
  assert (Hbase : exists w' e,
             BaseValidator.validate this value field w = (w', Thrown e)).
  { rewrite (base_validate_not_skipped this value field w Hskip), Hrules.
    destruct (run_rules_with_required_throws pre post value field w Hmiss)
      as (w' & e & ->).
    eauto. }
  unfold skipped in Hskip.
  unfold validate, BooleanValidator.validate, JSONValidator.validate.
  destruct (class_of this); try exact Hbase; rewrite Hskip.
  - destruct (negb (String.eqb (typeof value) "boolean"));
      [unfold throw; eauto | exact Hbase].
  - destruct (negb (JSON_parse_ok (ToString value)));
      [unfold throw; eauto | exact Hbase].
Qed.
End Required.

Section WellBehaved.
Context {World : Type} {host : Host}.

Lemma append_empty_r (s : string) : s ++ "" = s.
Proof. induction s as [| c s IH]; simpl; [reflexivity | now rewrite IH]. Qed.

Lemma append_associative (s t u : string) : (s ++ t) ++ u = s ++ (t ++ u).
Proof. induction s as [| c s IH]; simpl; [reflexivity | now rewrite IH]. Qed.

Lemma behaves_ret {A : Type} field (a : A) :
  behaves (World := World) field (ret a).
Proof. intro w. repeat split. Qed.

Lemma behaves_ValidationError {A : Type} field message :
  behaves (World := World) (A := A) field
    (throw (ValidationError field message)).
Proof.
  intro w. repeat split. simpl. left. exists "", message.
  rewrite append_empty_r. repeat split. constructor.
Qed.

Lemma behaves_length_of field value :
  behaves (World := World) field (lift (length_of value)).
Proof.
  intro w. destruct value; repeat split; simpl.
  - exists VUndefined. split; [now left | reflexivity].
  - exists VNull. split; [now right | reflexivity].
Qed.

Lemma behaves_bind {A B : Type} field (m : M World A) (k : A -> M World B) :
  behaves field m ->
  (forall a, behaves field (k a)) ->
  behaves field (bind m k).
Proof.
  intros Hm Hk w. unfold bind.
  destruct (Hm w) as (Hw & Hsame & Herr).
  destruct (m w) as [w1 [a | e]] eqn:Hmw; simpl in Hw; subst w1.
  - destruct (Hk a w) as (Hkw & Hksame & Hkerr).
    split; [exact Hkw | split; [| exact Hkerr]].
    intro w'. specialize (Hsame w'). destruct (m w') as [w2 [a' | e']] eqn:Hmw'.
    + simpl in Hsame. inversion Hsame; subst a'.
      destruct (Hm w') as (Hw' & _). rewrite Hmw' in Hw'. simpl in Hw'.
      subst w2. apply Hksame.
    + discriminate Hsame.
  - split; [reflexivity | split; [| exact Herr]].
    intro w'. specialize (Hsame w'). destruct (m w') as [w2 [a' | e']].
    + discriminate Hsame.
    + simpl in *. inversion Hsame. reflexivity.
Qed.

Lemma behaves_if {A : Type} field (b : bool) (m1 m2 : M World A) :
  behaves field m1 -> behaves field m2 -> behaves field (if b then m1 else m2).
Proof. destruct b; auto. Qed.

(** What the [catch] of the rule of [items] makes of the validation of the
    element at index [i], under the name of the element. *)
Lemma behaves_item field (i : nat) (m : M World unit) :
  behaves (field ++ "[" ++ string_of_nat i ++ "]") m ->
  behaves field
    (catch m
       (fun error =>
          throw (ErrorObject (error_field error) (error_message error)))).
Proof.
  intros Hm w. unfold catch, throw.
  destruct (Hm w) as (Hw & Hsame & Herr).
  destruct (m w) as [w1 [[] | e]] eqn:Hmw; simpl in Hw; subst w1.
  - split; [reflexivity | split; [| exact I]].
    intro w'. specialize (Hsame w'). destruct (m w') as [w2 [[] | e']].
    + reflexivity.
    + discriminate Hsame.
  - split; [reflexivity | split].
    + intro w'. specialize (Hsame w'). destruct (m w') as [w2 [[] | e']].
      * discriminate Hsame.
      * simpl in *. inversion Hsame. reflexivity.
    + simpl in *. destruct e as [f message | message]; simpl.
      * destruct Herr as [(path & text & Hpath & -> & ->) | Hcaught];
          [left | right; exact Hcaught].
        exists ("[" ++ string_of_nat i ++ "]" ++ path), text.
        split; [constructor; exact Hpath | split; [| reflexivity]].
        rewrite append_associative. simpl.
        now rewrite append_associative.
      * destruct Herr as (v & Hv & ->). right. exists v. auto.
Qed.

(** [validate] behaves when the loop over the rules does, for every class. *)
Lemma behaves_validate (this : BaseValidator World) value field :
  behaves field (BaseValidator.run_rules (rules this) value field) ->
  behaves field (validate this value field).
Proof.
  intro Hrules.
  assert (Hbase : behaves field (BaseValidator.validate this value field)).
  { unfold BaseValidator.validate. apply behaves_if; [apply behaves_ret |].
    apply behaves_bind; [exact Hrules | intros _; apply behaves_ret]. }
  unfold validate, BooleanValidator.validate, JSONValidator.validate.
  destruct (class_of this); try exact Hbase;
    (apply behaves_if; [apply behaves_ret |]);
    (apply behaves_if; [apply behaves_ValidationError | exact Hbase]).
Qed.

Lemma behaves_items_loop (validator : BaseValidator World) field elems :
  (forall value field',
      behaves field' (BaseValidator.run_rules (rules validator) value field')) ->
  forall i, behaves field (ArrayValidator.items_loop validator elems field i).
Proof.
  intro Hrules. induction elems as [| element rest IH]; intro i;
    cbn [ArrayValidator.items_loop].
  - apply behaves_ret.
  - apply behaves_bind; [| intros _; apply IH].
    apply behaves_item with (i := i).
    apply behaves_bind; [| intros _; apply behaves_ret].
    apply behaves_validate, Hrules.
Qed.

(** Every rule of the library behaves, and so does the loop over a list of
    them. *)
Lemma library_rules_behave :
  (forall rule : Rule World,
      library_rule rule -> forall value field, behaves field (rule value field))
  /\ (forall rs : list (Rule World),
         library_rules rs ->
         forall value field,
           behaves field (BaseValidator.run_rules rs value field)).
Proof.
  split.
  - intros rule H.
    induction H using library_rule_mutual
      with (P0 := fun rs =>
                    forall value field,
                      behaves field (BaseValidator.run_rules rs value field));
      intros value field;
      try (apply behaves_if;
           [apply behaves_ValidationError | apply behaves_ret]);
      try (apply behaves_bind; [apply behaves_length_of | intros len];
           apply behaves_if;
           [apply behaves_ValidationError | apply behaves_ret]).
    + apply behaves_bind; [apply behaves_length_of | intros _].
      apply behaves_items_loop. assumption.
    + apply behaves_ret.
    + cbn [BaseValidator.run_rules]. apply behaves_bind; [auto | intros _; auto].
  - intros rs H.
    induction H using library_rules_mutual
      with (P := fun rule =>
                   forall value field, behaves field (rule value field));
      intros value field;
      try (apply behaves_if;
           [apply behaves_ValidationError | apply behaves_ret]);
      try (apply behaves_bind; [apply behaves_length_of | intros len];
           apply behaves_if;
           [apply behaves_ValidationError | apply behaves_ret]).
    + apply behaves_bind; [apply behaves_length_of | intros _].
      apply behaves_items_loop. assumption.
    + apply behaves_ret.
    + cbn [BaseValidator.run_rules]. apply behaves_bind; [auto | intros _; auto].
Qed.

End WellBehaved.

Section RuleOrder.
Context {World : Type} {host : Host}.

(** A loop over pure rules succeeds exactly when each rule does on its own. *)
Lemma run_rules_pure (rs : list (Rule World)) value field w :
  Forall pure_rule rs ->
  fst (BaseValidator.run_rules rs value field w) = w
  /\ (snd (BaseValidator.run_rules rs value field w) = Returned tt
      <-> Forall (fun rule : Rule World =>
                    snd (rule value field w) = Returned tt) rs).
Proof.
  induction 1 as [| rule rest Hpure _ IH]; cbn [BaseValidator.run_rules].
  - split; [reflexivity | split; [constructor | reflexivity]].
  - unfold bind. destruct (Hpure value field w w) as [Hw _].
    destruct (rule value field w) as [w1 [[] | e]] eqn:Hrule;
      simpl in Hw; subst w1.
    + destruct IH as [IHw IHok]. split; [exact IHw |].
      rewrite IHok. split.
      * intro Hrest. constructor; [now rewrite Hrule | exact Hrest].
      * intro Hall. inversion Hall; assumption.
    + split; [reflexivity |]. split; [discriminate |].
      intro Hall. inversion Hall as [| ? ? Hhead _]; subst.
      rewrite Hrule in Hhead. discriminate Hhead.
Qed.

Lemma run_rules_permuted (rs rs' : list (Rule World)) value field w :
  Permutation rs rs' ->
  Forall pure_rule rs ->
  (BaseValidator.run_rules rs value field w = (w, Returned tt)
   <-> BaseValidator.run_rules rs' value field w = (w, Returned tt)).
Proof.
  intros Hperm Hpure.
  assert (Hpure' : Forall pure_rule rs').
  { apply (Permutation_Forall Hperm), Hpure. }
  destruct (run_rules_pure rs value field w Hpure) as [Hw Hok].
  destruct (run_rules_pure rs' value field w Hpure') as [Hw' Hok'].
  assert (Hiff : snd (BaseValidator.run_rules rs value field w) = Returned tt
                 <-> snd (BaseValidator.run_rules rs' value field w)
                     = Returned tt).
  { rewrite Hok, Hok'. split; intro Hall.
    - apply (Permutation_Forall Hperm), Hall.
    - apply (Permutation_Forall (Permutation_sym Hperm)), Hall. }
  destruct (BaseValidator.run_rules rs value field w) as [w1 r1];
    destruct (BaseValidator.run_rules rs' value field w) as [w2 r2];
    simpl in *; subst w1 w2.
  split; intro H; inversion H; subst; f_equal; apply Hiff; reflexivity.
Qed.

(** Whether a value passes does not depend on the order the constraints
    were chained in, only which error is reported does: two validators of
    the same class and the same flag whose rules are the same up to their
    order, all of them pure, succeed on the same values, with the same
    result. *)
Theorem success_does_not_depend_on_the_order_of_the_rules
    (this other : BaseValidator World) value field (w : World) r :
  class_of this = class_of other ->
  isRequired this = isRequired other ->
  Permutation (rules this) (rules other) ->
  Forall pure_rule (rules this) ->
  (validate this value field w = (w, Returned r)
   <-> validate other value field w = (w, Returned r)).
Proof.
  intros Hclass Hreq Hperm Hpure.
  pose proof (run_rules_permuted _ _ value field w Hperm Hpure) as Hrun.
  assert (Hbase : BaseValidator.validate this value field w = (w, Returned r)
                  <-> BaseValidator.validate other value field w
                      = (w, Returned r)).
  { unfold BaseValidator.validate. rewrite <- Hreq.
    destruct (strict_equals value VUndefined && negb (isRequired this));
      [reflexivity |].
    unfold bind, ret.
    destruct (BaseValidator.run_rules (rules this) value field w)
      as [w1 [[] | e1]] eqn:H1;
      destruct (BaseValidator.run_rules (rules other) value field w)
        as [w2 [[] | e2]] eqn:H2.
    - destruct Hrun as [Hf Hb].
      split; intro H; inversion H; subst.
      + specialize (Hf eq_refl). inversion Hf. reflexivity.
      + specialize (Hb eq_refl). inversion Hb. reflexivity.
    - destruct Hrun as [Hf _].
      split; intro H; [| discriminate H]. inversion H; subst.
      specialize (Hf eq_refl). discriminate Hf.
    - destruct Hrun as [_ Hb].
      split; intro H; [discriminate H |]. inversion H; subst.
      specialize (Hb eq_refl). discriminate Hb.
    - split; intro H; discriminate H. }
  unfold validate, BooleanValidator.validate, JSONValidator.validate.
  rewrite <- Hclass, <- Hreq.
  destruct (class_of this); try exact Hbase;
    (destruct (strict_equals value VUndefined && negb (isRequired this));
     [reflexivity |]).
  - destruct (negb (String.eqb (typeof value) "boolean"));
      [reflexivity | exact Hbase].
  - destruct (negb (JSON_parse_ok (ToString value)));
      [reflexivity | exact Hbase].
Qed.

(** The rules of the library are pure. *)
Lemma library_rule_is_pure (rule : Rule World) :
  library_rule rule -> pure_rule rule.
Proof.
  intros Hlib value field w w'.
  destruct (proj1 library_rules_behave rule Hlib value field w)
    as (Hw & Hsame & _).
  split; [exact Hw | apply Hsame].
Qed.
End RuleOrder.

Section SchemaOutcomes.
Context {World : Type} {host : Host}.

Lemma reject_extra_fields_returned (this : Schema World) dataKeys w w' u :
  Schema.reject_extra_fields this (map fst (schema this)) dataKeys w
  = (w', Returned u) ->
  w' = w
  /\ (only this = true ->
      forall key, In key dataKeys -> In key (map fst (schema this))).
Proof.
  unfold Schema.reject_extra_fields. destruct (only this).
  - destruct (filter (fun key => negb (includes_key (map fst (schema this)) key))
                dataKeys) as [| extra rest] eqn:Hfilter;
      intro H; [| discriminate H].
    inversion H; subst. split; [reflexivity |].
    intros _ key Hin. apply includes_key_In.
    destruct (includes_key (map fst (schema this)) key) eqn:Hkey;
      [reflexivity |].
    assert (Hextra : In key
                       (filter (fun key =>
                                  negb (includes_key (map fst (schema this)) key))
                          dataKeys)).
    { apply filter_In. split; [exact Hin | now rewrite Hkey]. }
    rewrite Hfilter in Hextra. contradiction.
  - intro H. inversion H. split; [reflexivity | discriminate].
Qed.

Lemma require_fields_returned (entries : list (string * BaseValidator World))
    data w w' u :
  Schema.require_fields entries data w = (w', Returned u) ->
  w' = w /\ none_missing entries data.
Proof.
  unfold none_missing.
  induction entries as [| [key validator] rest IH]; simpl; intro H.
  - inversion H. split; [reflexivity | intros ? ? []].
  - destruct (has_property key data) eqn:Hhas;
      destruct (isRequired validator) eqn:Hreq; simpl in H;
      try discriminate H;
      destruct (IH H) as [Hw Hrest]; (split; [exact Hw |]);
      intros k v [Heq | Hin]; try (apply Hrest; exact Hin);
      inversion Heq; subst; auto.
Qed.

Lemma validate_fields_returned (this : Schema World) data entries w w' u :
  (forall key validator,
      In (key, validator) entries -> assoc key (schema this) = Some validator) ->
  Schema.validate_fields this (map fst entries) data w = (w', Returned u) ->
  fields_pass data entries w w'.
Proof.
  revert w. induction entries as [| [key validator] rest IH];
    intros w Hget H; cbn [map fst Schema.validate_fields] in H.
  - inversion H. constructor.
  - assert (Hrest : forall k v, In (k, v) rest -> assoc k (schema this) = Some v).
    { intros k v Hin. apply Hget. now right. }
    unfold bind in H. destruct (has_property key data) eqn:Hhas.
    + rewrite (Hget key validator (or_introl eq_refl)) in H.
      unfold ret in H.
      destruct (validate validator (get_property data key) key w)
        as [w1 [r | e]] eqn:Hvalid; [| discriminate H].
      eapply fields_pass_present; eauto.
    + unfold ret in H. apply fields_pass_absent; [exact Hhas |].
      apply (IH w Hrest H).
Qed.

(** What a success of [Schema.validate] stands for: the result is
    [Validation successful]; every entry of the schema's map whose validator
    is required is found by [key in record], as an own property or an
    inherited one; in strict mode every own enumerable key of the record is
    declared; and every declared field that [key in record] finds passed its
    validator on [record[key]], in the order of the map's entries, which is
    that of [Object.entries] on the definition. *)
Theorem schema_success_means_every_check_passed
    (this : Schema World) data (w w' : World) r :
  NoDup (map fst (schema this)) ->
  Schema.validate this data w = (w', Returned r) ->
  r = VStr "Validation successful"
  /\ no_extra_field this data
  /\ none_missing (schema this) data
  /\ fields_pass data (schema this) w w'.
Proof.
  intros Hnodup. unfold Schema.validate, bind.
  destruct (Schema.reject_extra_fields this (map fst (schema this))
              (Object_keys data) w) as [w1 [[] | e1]] eqn:Hstrict;
    [| discriminate].
  destruct (reject_extra_fields_returned this _ w w1 tt Hstrict) as [-> Hextra].
  destruct (Schema.require_fields (schema this) data w) as [w2 [[] | e2]]
    eqn:Hrequire; [| discriminate].
  destruct (require_fields_returned _ data w w2 tt Hrequire) as [-> Hnone].
  destruct (Schema.validate_fields this (map fst (schema this)) data w)
    as [w3 [[] | e3]] eqn:Hfields; [| discriminate].
  unfold ret. intro H. inversion H; subst.
  repeat split; try assumption.
  apply (validate_fields_returned this data (schema this) w w' tt);
    [| exact Hfields].
  intros key validator Hin. apply assoc_In; assumption.
Qed.

Lemma validate_fields_reads_the_map (this other : Schema World) keys data :
  schema this = schema other ->
  forall w,
    Schema.validate_fields this keys data w
    = Schema.validate_fields other keys data w.
Proof.
  intro Hsame. induction keys as [| key rest IH];
    cbn [Schema.validate_fields]; intro w.
  - reflexivity.
  - rewrite Hsame. apply bind_agree; [reflexivity | intros _ w'; apply IH].
Qed.

(** Strict mode adds the check of the record's keys and nothing else: on a
    record all of whose keys are declared, a strict schema and the same
    schema without strict mode have the same outcome. *)
Theorem strict_mode_changes_nothing_without_extra_keys
    (schemaDefinition : list (string * BaseValidator World)) data (w : World) :
  (forall key, In key (Object_keys data) -> In key (map fst schemaDefinition)) ->
  Schema.validate (Validator.createSchema schemaDefinition true) data w
  = Schema.validate (Validator.createSchema schemaDefinition false) data w.
Proof.
  intro Hdeclared. unfold Schema.validate.
  rewrite (bind_returned _ _ w w tt
             (reject_extra_fields_none
                (Validator.createSchema schemaDefinition true) data w
                (fun _ => Hdeclared))).
  rewrite (bind_returned _ _ w w tt
             (reject_extra_fields_none
                (Validator.createSchema schemaDefinition false) data w
                (fun H => False_ind _ (diff_false_true H)))).
  apply bind_agree; [reflexivity | intros _ w1].
  apply bind_agree; [| reflexivity].
  apply validate_fields_reads_the_map. reflexivity.
Qed.

Lemma require_fields_of_nothing (entries : list (string * BaseValidator World))
    data w :
  (forall key, In key (map fst entries) -> has_property key data = false) ->
  Schema.require_fields entries data w
  = match find (fun entry => isRequired (snd entry)) entries with
    | Some entry => (w, Thrown (ValidationError (fst entry) "Field is required"))
    | None => (w, Returned tt)
    end.
Proof.
  induction entries as [| [key validator] rest IH]; simpl; intro Hnone.
  - reflexivity.
  - rewrite (Hnone key (or_introl eq_refl)). simpl.
    destruct (isRequired validator); [reflexivity |].
    apply IH. intros k Hk. apply Hnone. now right.
Qed.

Lemma validate_fields_of_nothing (this : Schema World) keys data w :
  (forall key, In key keys -> has_property key data = false) ->
  Schema.validate_fields this keys data w = (w, Returned tt).
Proof.
  induction keys as [| key rest IH]; cbn [Schema.validate_fields]; intro Hnone.
  - reflexivity.
  - rewrite (Hnone key (or_introl eq_refl)). unfold bind at 1, ret at 1.
    apply IH. intros k Hk. apply Hnone. now right.
Qed.

(** A record in which [in] finds none of the declared fields, own or
    inherited, and which passes the strict check (in strict mode, a record
    with no undeclared key of its own): the first entry of the schema's map
    whose validator is required is reported with [Field is required]; a
    schema that requires nothing accepts the record, and no validator is
    called. Such a record is [Object.create(null)], and also [{}] when the
    schema declares no member of [Object.prototype]. *)
Theorem record_without_declared_fields_fails_on_the_first_required_entry
    (this : Schema World) data (w : World) :
  no_extra_field this data ->
  (forall key,
      In key (map fst (schema this)) -> has_property key data = false) ->
  Schema.validate this data w
  = match find (fun entry => isRequired (snd entry)) (schema this) with
    | Some entry => (w, Thrown (ValidationError (fst entry) "Field is required"))
    | None => (w, Returned (VStr "Validation successful"))
    end.
Proof.
  intros Hstrict Hnone. unfold Schema.validate.
  rewrite (bind_returned _ _ _ _ _ (reject_extra_fields_none this data w Hstrict)).
  unfold bind at 1. rewrite (require_fields_of_nothing _ data w Hnone).
  destruct (find (fun entry => isRequired (snd entry)) (schema this));
    [reflexivity |].
  unfold bind. rewrite (validate_fields_of_nothing this _ data w Hnone).
  reflexivity.
Qed.

(** [required] called first on a validator whose rules so far the value
    passes: a missing value that passes the class's own check meets the rule
    of [required]. *)
Lemma required_rejects (first this : BaseValidator World) value field w w1 :
  missing value ->
  chain (BaseValidator.required first) this ->
  rules_pass value field (rules first) w w1 ->
  own_check this value = true ->
  validate this value field w
  = (w1, Thrown (ValidationError field "Value is required")).
Proof.
  intros Hmiss Hchain Hfirst Hcheck.
  destruct (chain_required _ _ Hchain) as (_ & Hreq & post & Hrules).
  assert (Hskip : skipped this value = false).
  { unfold skipped. rewrite Hreq. apply andb_false_r. }
  rewrite (validate_inherited this value field Hskip Hcheck).
  rewrite (base_validate_not_skipped this value field w Hskip), Hrules.
  rewrite (run_rules_first_failure _ post _ _ _ _ _ _ _ Hfirst
             (required_rule_missing value field w1 Hmiss)).
  reflexivity.
Qed.

(** The two required checks tell a field that is absent from one that is
    present and empty. A declared field of a string, number or array
    validator on which [required()] was called first, present in the record
    with [''], [null] or [undefined] for its value, is not reported with
    [Field is required]: the record gets past that check, and the field
    fails in its turn with [Value is required]. *)
Theorem present_but_empty_required_field_fails_with_value_is_required
    (this : Schema World) data pre key (c : validator_class)
    (validator : BaseValidator World) post (w w1 : World) :
  no_extra_field this data ->
  none_missing (schema this) data ->
  NoDup (map fst (schema this)) ->
  schema this = (pre ++ (key, validator) :: post)%list ->
  fields_pass data pre w w1 ->
  has_property key data = true ->
  missing (get_property data key) ->
  chain (BaseValidator.required (BaseValidator.new c)) validator ->
  c <> IsBoolean ->
  c <> IsJSON ->
  Schema.validate this data w
  = (w1, Thrown (ValidationError key "Value is required")).
Proof.
  intros Hstrict Hnone Hnodup Hschema Hpass Hpresent Hmiss Hchain Hb Hj.
  assert (Hcheck : own_check validator (get_property data key) = true).
  { unfold own_check.
    destruct (chain_required _ _ Hchain) as (-> & _).
    simpl. destruct c; try reflexivity; contradiction. }
  pose proof (required_rejects (BaseValidator.new c) validator
                (get_property data key) key w1 w1 Hmiss Hchain
                (rules_pass_nil _ _ _) Hcheck) as Hfail.
  unfold Schema.validate.
  rewrite (bind_returned _ _ _ _ _ (reject_extra_fields_none this data w Hstrict)).
  rewrite (bind_returned _ _ _ _ _ (require_fields_none _ data w Hnone)).
  apply bind_thrown. rewrite Hschema.
  apply validate_fields_first_failure with (w1 := w1); try assumption.
  intros k v Hin. apply assoc_In; [assumption |].
  rewrite Hschema. apply in_app_or in Hin. apply in_or_app.
  destruct Hin as [Hin | [Heq | []]]; [now left | right; now left].
Qed.
End SchemaOutcomes.

(** ** The two patterns *)

Section RegularExpressions.









End RegularExpressions.

Section Patterns.
Context {World : Type} {host : Host}.













End Patterns.

Section Booleans.
Context {World : Type} {host : Host}.



End Booleans.
(** ** The order of a definition's entries *)

Section KeyOrder.
Context {A : Type}.

Lemma define_property_fresh (key : string) (a : A) (props : list (string * A)) :
  ~ In key (map fst props) ->
  define_property key a props = (props ++ [(key, a)])%list.
Proof.
  induction props as [| [k b] rest IH]; simpl; intro Hfresh.
  - reflexivity.
  - destruct (String.eqb_spec key k) as [-> | _].
    + exfalso. apply Hfresh. now left.
    + rewrite IH; [reflexivity |]. intro Hin. apply Hfresh. now right.
Qed.

Lemma define_distinct_properties (written props : list (string * A)) :
  NoDup (map fst (props ++ written)) ->
  fold_left (fun props entry => define_property (fst entry) (snd entry) props)
    written props
  = (props ++ written)%list.
Proof.
  revert props. induction written as [| [key a] rest IH]; intros props Hnodup.
  - simpl. now rewrite app_nil_r.
  - simpl. rewrite define_property_fresh.
    + rewrite IH; rewrite <- app_assoc; [reflexivity | exact Hnodup].
    + rewrite map_app in Hnodup. simpl in Hnodup.
      apply NoDup_remove_2 in Hnodup. intro Hin. apply Hnodup.
      apply in_or_app. now left.
Qed.

Lemma own_property_order_without_indices (props : list (string * A)) :
  (forall key, In key (map fst props) -> array_index key = None) ->
  own_property_order props = props.
Proof.
  intro Hplain. unfold own_property_order.
  assert (Hsorted : forall sorted,
             fold_left
               (fun sorted (entry : string * A) =>
                  match array_index (fst entry) with
                  | Some n => insert_by_index n entry sorted
                  | None => sorted
                  end) props sorted
             = sorted).
  { induction props as [| [key a] rest IH]; intro sorted; simpl.
    - reflexivity.
    - rewrite (Hplain key (or_introl eq_refl)). apply IH.
      intros k Hk. apply Hplain. now right. }
  rewrite Hsorted. simpl.
  induction props as [| [key a] rest IH]; simpl.
  - reflexivity.
  - rewrite (Hplain key (or_introl eq_refl)). f_equal. apply IH.
    + intros k Hk. apply Hplain. now right.
    + intro sorted. specialize (Hsorted sorted). simpl in Hsorted.
      rewrite (Hplain key (or_introl eq_refl)) in Hsorted. exact Hsorted.
Qed.

(** The entries of a definition come in the order they were written when
    the keys are distinct and none is an array index. *)
Lemma object_literal_entries_keep_the_written_order
    (written : list (string * A)) :
  NoDup (map fst written) ->
  (forall key, In key (map fst written) -> array_index key = None) ->
  object_literal_entries written = written.
Proof.
  intros Hnodup Hplain. unfold object_literal_entries.
  rewrite (define_distinct_properties written []); [| exact Hnodup].
  apply own_property_order_without_indices, Hplain.
Qed.
End KeyOrder.

(** * The statements at work

    The examples run on [example_host], the rules over the world [Log]. *)

#[local] Existing Instance example_host.

(** A validator that is not required skips [undefined]: the logging rule
    chained on it leaves the log empty. *)
Lemma C2_witness :
  isRequired (push log_rule (StringValidator.min 3 Validator.string)) = false
  /\ validate (push log_rule (StringValidator.min 3 Validator.string))
       VUndefined "f" []
     = ([], Returned VUndefined).
Proof.
  split; [reflexivity |].
  apply C2_undefined_skips_every_rule. reflexivity.
Defined.

(** [null] is not skipped. On a validator that is not required the logging
    rule is run on it, [oneOf] rejects it, and [min] fails reading its
    length. *)
Lemma C2_null_is_not_skipped :
  isRequired (push log_rule Validator.string) = false
  /\ validate (push log_rule Validator.string) VNull "f" []
     = (["f"], Returned (VBool true))
  /\ validate (BaseValidator.oneOf [VStr "a"] Validator.string) VNull "f"
       ([] : Log)
     = ([], Thrown (ValidationError "f" "Value must be one of: a"))
  /\ validate (StringValidator.min 3 Validator.string) VNull "f" ([] : Log)
     = ([], Thrown (TypeError
                      "Cannot read properties of null (reading 'length')")).
Proof. repeat split. Qed.

(** A required string validator on [''], a required JSON validator on
    [undefined], and [boolean().oneOf([true]).required()] on [''], where the
    rule chained before [required] would not let the value pass. *)
Lemma C1_witness :
  validate (StringValidator.min 3 (BaseValidator.required Validator.string))
    (VStr "") "f" ([] : Log)
  = ([], Thrown (ValidationError "f" "Value is required"))
  /\ validate
       (BaseValidator.required
          (BaseValidator.oneOf [VBool true] Validator.boolean))
       (VStr "") "f" ([] : Log)
     = ([], Thrown (ValidationError "f" "Value must be a boolean"))
  /\ validate (BaseValidator.required Validator.json) VUndefined "f" ([] : Log)
     = ([], Thrown (ValidationError "f" "Invalid JSON format")).
Proof.
  split; [| split].
  - apply (proj1 (C1_required_rejects_missing_values Validator.string
                    (StringValidator.min 3
                       (BaseValidator.required Validator.string))
                    (VStr "") "f" []
                    (or_intror (or_intror eq_refl))
                    (chain_more _ _ _ (chain_done _)
                       (chained_string_min
                          (BaseValidator.required Validator.string) 3 eq_refl)))
             []).
    + constructor.
    + reflexivity.
  - apply (proj1 (proj2 (C1_required_rejects_missing_values
                           (BaseValidator.oneOf [VBool true] Validator.boolean)
                           (BaseValidator.required
                              (BaseValidator.oneOf [VBool true]
                                 Validator.boolean))
                           (VStr "") "f" []
                           (or_intror (or_intror eq_refl))
                           (chain_done _)))).
    reflexivity.
  - apply (proj2 (proj2 (C1_required_rejects_missing_values Validator.json
                           (BaseValidator.required Validator.json)
                           VUndefined "f" []
                           (or_introl eq_refl) (chain_done _)))).
    + reflexivity.
    + reflexivity.
Defined.

(** [required] was called, and the error is not [Value is required]: a
    boolean validator on [''], a JSON validator on [''], and a string
    validator with [min(1)] chained before [required]. *)
Lemma C1_required_validators_with_another_message :
  isRequired (BaseValidator.required (Validator.boolean (World := Log))) = true
  /\ validate (BaseValidator.required Validator.boolean) (VStr "") "f" ([] : Log)
     = ([], Thrown (ValidationError "f" "Value must be a boolean"))
  /\ validate (BaseValidator.required Validator.json) (VStr "") "f" ([] : Log)
     = ([], Thrown (ValidationError "f" "Invalid JSON format"))
  /\ validate (BaseValidator.required (StringValidator.min 1 Validator.string))
       (VStr "") "f" ([] : Log)
     = ([], Thrown (ValidationError "f"
                      "Value must be at least 1 characters long")).
Proof. repeat split. Qed.

(** Between two logging rules, [min(0)] rejects [-1]: the log holds one
    entry, the second logging rule was not run. *)
Lemma C8_witness :
  validate
    (push log_rule (NumberValidator.min 0 (push log_rule Validator.number)))
    (VNum (-1)) "f" []
  = (["f"], Thrown (ValidationError "f"
                      "Value must be greater than or equal to 0")).
Proof.
  apply (proj1 (C8_rules_run_in_order_first_failure_wins
                  (push log_rule
                     (NumberValidator.min 0 (push log_rule Validator.number)))
                  (VNum (-1)) "f" [] eq_refl eq_refl)
           [log_rule] (NumberValidator.min_rule 0) [log_rule] ["f"]).
  - reflexivity.
  - econstructor; [reflexivity | constructor].
  - reflexivity.
Defined.

(** A boolean validator without a rule: the string ['true'] is not skipped,
    every rule passes since there is none, and [validate] fails. *)
Lemma C8_boolean_fails_with_no_failing_rule :
  skipped (Validator.boolean (World := Log)) (VStr "true") = false
  /\ rules_pass (VStr "true") "f" (rules (Validator.boolean (World := Log))) [] []
  /\ validate Validator.boolean (VStr "true") "f" ([] : Log)
     = ([], Thrown (ValidationError "f" "Value must be a boolean")).
Proof. repeat split. constructor. Qed.

(** [string().min(3)]: [undefined] where the value is skipped, [true] on
    ['abc']. *)
Lemma C9_witness :
  validate (StringValidator.min 3 Validator.string) VUndefined "f" ([] : Log)
  = ([], Returned VUndefined)
  /\ validate (StringValidator.min 3 Validator.string) (VStr "abc") "f" ([] : Log)
     = ([], Returned (VBool true)).
Proof.
  destruct (C9_two_success_values (StringValidator.min 3 Validator.string)
              (VStr "abc") "f" ([] : Log) []) as (Hskip & Hpass & _).
  split.
  - apply Hskip. reflexivity.
  - apply Hpass; [reflexivity | reflexivity |].
    econstructor; [reflexivity | constructor].
Defined.

(** [boolean().required()], then a logging rule, then [oneOf([true])]. The
    string ['true'] fails the type check and the log stays empty; [false]
    reaches the rules, is logged and rejected by [oneOf]; [true] is logged
    and passes. *)
Lemma C7_witness :
  BooleanValidator.validate
    (BaseValidator.oneOf [VBool true]
       (push log_rule (BaseValidator.required Validator.boolean)))
    (VStr "true") "f" []
  = ([], Thrown (ValidationError "f" "Value must be a boolean"))
  /\ BooleanValidator.validate
       (BaseValidator.oneOf [VBool true]
          (push log_rule (BaseValidator.required Validator.boolean)))
       (VBool false) "f" []
     = (["f"], Thrown (ValidationError "f" "Value must be one of: true"))
  /\ BooleanValidator.validate
       (BaseValidator.oneOf [VBool true]
          (push log_rule (BaseValidator.required Validator.boolean)))
       (VBool true) "f" []
     = (["f"], Returned (VBool true)).
Proof.
  split; [| split].
  - apply (C7_boolean_type_check_comes_first
             (BaseValidator.oneOf [VBool true]
                (push log_rule (BaseValidator.required Validator.boolean)))
             (VStr "true") "f" [] eq_refl).
    discriminate.
  - apply (proj1 (proj2 (C7_boolean_type_check_comes_first
                           (BaseValidator.oneOf [VBool true]
                              (push log_rule
                                 (BaseValidator.required Validator.boolean)))
                           (VBool false) "f" [] eq_refl) eq_refl)
             [BaseValidator.required_rule; log_rule]
             (BaseValidator.oneOf_rule [VBool true]) [] ["f"]).
    + reflexivity.
    + econstructor; [reflexivity |].
      econstructor; [reflexivity | constructor].
    + reflexivity.
  - apply (proj2 (proj2 (C7_boolean_type_check_comes_first
                           (BaseValidator.oneOf [VBool true]
                              (push log_rule
                                 (BaseValidator.required Validator.boolean)))
                           (VBool true) "f" [] eq_refl) eq_refl)).
    econstructor; [reflexivity |].
    econstructor; [reflexivity |].
    econstructor; [reflexivity | constructor].
Defined.


(** [array().items(number().min(0))] on [[1, -1, 2]] under the name [name]:
    the element at index 1 fails and the error names [name[1]]. *)
Lemma C5_witness :
  validate
    (ArrayValidator.items (NumberValidator.min 0 Validator.number)
       Validator.array)
    (VArr [VNum 1; VNum (-1); VNum 2]) "name" ([] : Log)
  = ([], Thrown (ValidationError "name[1]"
                   "Value must be greater than or equal to 0")).
Proof.
  apply (proj1 (C5_items_reports_the_first_failing_element
                  (NumberValidator.min 0 Validator.number) Validator.array
                  [VNum 1; VNum (-1); VNum 2] "name" [] []
                  eq_refl (rules_pass_nil _ _ _))
           [VNum 1] (VNum (-1)) [VNum 2] [] []).
  - reflexivity.
  - econstructor; [reflexivity | constructor].
  - reflexivity.
Defined.

(** A nested validation that ends in a [TypeError] comes out of the rule of
    [items] as an object without a field: [items(string().min(1))] on
    [['a', null]]. *)
Example items_rule_on_a_type_error :
  ArrayValidator.items_rule (StringValidator.min 1 Validator.string)
    (VArr [VStr "a"; VNull]) "name" ([] : Log)
  = ([], Thrown (ErrorObject VUndefined
                   (VStr "Cannot read properties of null (reading 'length')"))).
Proof. reflexivity. Qed.

(** The schema [{ a: string() }] in strict mode on [{ a: 'x', b: 1 }]. *)
Lemma C4_witness :
  Schema.validate (Validator.createSchema [("a", Validator.string)] true)
    (literal [("a", VStr "x"); ("b", VNum 1)]) ([] : Log)
  = ([], Thrown (ValidationError "b"
                   "Unexpected field 'b' not defined in schema")).
Proof.
  apply (C4_strict_mode_reports_the_first_extra_key
           (Validator.createSchema [("a", Validator.string)] true)
           (literal [("a", VStr "x"); ("b", VNum 1)]) ["a"] "b" [] []).
  - reflexivity.
  - reflexivity.
  - intros key [<- | []]. left. reflexivity.
  - intros [Heq | []]. discriminate Heq.
Defined.

(** The schema [{ age: number().min(0), name: string().required() }]. On
    [{ age: -5 }] the missing [name] is reported, though [age] is declared
    first and invalid; on [{ age: -5, name: '' }] both fields are invalid and
    [age], declared first, is the one reported; [{ age: 30, name: 'Al' }]
    passes. *)
Lemma C3_witness :
  Schema.validate
    (Validator.createSchema
       [("age", NumberValidator.min 0 Validator.number);
        ("name", BaseValidator.required Validator.string)] false)
    (literal [("age", VNum (-5))]) ([] : Log)
  = ([], Thrown (ValidationError "name" "Field is required"))
  /\ Schema.validate
       (Validator.createSchema
          [("age", NumberValidator.min 0 Validator.number);
           ("name", BaseValidator.required Validator.string)] false)
       (literal [("age", VNum (-5)); ("name", VStr "")]) ([] : Log)
     = ([], Thrown (ValidationError "age"
                      "Value must be greater than or equal to 0"))
  /\ Schema.validate
       (Validator.createSchema
          [("age", NumberValidator.min 0 Validator.number);
           ("name", BaseValidator.required Validator.string)] false)
       (literal [("age", VNum 30); ("name", VStr "Al")]) ([] : Log)
     = ([], Returned (VStr "Validation successful")).
Proof.
  assert (Hnodup : NoDup ["age"; "name"]).
  { constructor; [intros [H | []]; discriminate H |].
    constructor; [intros [] | constructor]. }
  split; [| split].
  - apply (proj1 (C3_required_fields_first_then_fields_in_order
                    (Validator.createSchema
                       [("age", NumberValidator.min 0 Validator.number);
                        ("name", BaseValidator.required Validator.string)] false)
                    (literal [("age", VNum (-5))]) []
                    (fun H => False_ind _ (diff_false_true H)))
             [("age", NumberValidator.min 0 Validator.number)]
             "name" (BaseValidator.required Validator.string) []).
    + reflexivity.
    + intros key validator [Heq | []]. inversion Heq. left. reflexivity.
    + reflexivity.
    + reflexivity.
  - refine (proj1 (proj2 (C3_required_fields_first_then_fields_in_order
                    (Validator.createSchema
                       [("age", NumberValidator.min 0 Validator.number);
                        ("name", BaseValidator.required Validator.string)] false)
                    (literal [("age", VNum (-5)); ("name", VStr "")]) []
                    (fun H => False_ind _ (diff_false_true H))) _ Hnodup)
             [] "age" (NumberValidator.min 0 Validator.number)
             [("name", BaseValidator.required Validator.string)] [] []
             _ eq_refl _ eq_refl eq_refl).
    + intros key validator [Heq | [Heq | []]]; inversion Heq; left; reflexivity.
    + constructor.
  - apply (proj2 (C3_required_fields_first_then_fields_in_order
                    (Validator.createSchema
                       [("age", NumberValidator.min 0 Validator.number);
                        ("name", BaseValidator.required Validator.string)] false)
                    (literal [("age", VNum 30); ("name", VStr "Al")]) []
                    (fun H => False_ind _ (diff_false_true H)))).
    + intros key validator [Heq | [Heq | []]]; inversion Heq; left; reflexivity.
    + exact Hnodup.
    + eapply fields_pass_present; [reflexivity | reflexivity |].
      eapply fields_pass_present; [reflexivity | reflexivity |].
      constructor.
Defined.

(** The definition [{ name: string().required(), 1: string().required() }]
    lists [1] before [name], and on a record with neither it is [1] that is
    reported, not the field declared first. And a strict schema that
    requires [name] accepts a record with no key of its own that inherits
    [name]: [in] finds the field, and its validator is run on the inherited
    value. *)
Lemma C3_order_of_entries_and_inherited_fields :
  map fst
    (object_literal_entries
       [("name", BaseValidator.required (Validator.string (World := Log)));
        ("1", BaseValidator.required Validator.string)])
  = ["1"; "name"]
  /\ Schema.validate
       (Validator.createSchema
          (object_literal_entries
             [("name", BaseValidator.required Validator.string);
              ("1", BaseValidator.required Validator.string)])
          false)
       (literal []) ([] : Log)
     = ([], Thrown (ValidationError "1" "Field is required"))
  /\ Object_keys
       {| own_enumerable := []; other_properties := [("name", VStr "Al")] |}
     = []
  /\ Schema.validate
       (Validator.createSchema
          [("name", push log_rule (BaseValidator.required Validator.string))]
          true)
       {| own_enumerable := []; other_properties := [("name", VStr "Al")] |}
       []
     = (["name"], Returned (VStr "Validation successful")).
Proof. repeat split. Qed.

(** The schema [{ a: string().min(3) }], not strict: [{ a: 'abc' }] and
    [{ a: 'abc', b: 1 }] get the same outcome. *)
Lemma C10_witness :
  Schema.validate
    (Validator.createSchema [("a", StringValidator.min 3 Validator.string)] false)
    (literal [("a", VStr "abc")]) ([] : Log)
  = Schema.validate
      (Validator.createSchema [("a", StringValidator.min 3 Validator.string)] false)
      (literal [("a", VStr "abc"); ("b", VNum 1)]) [].
Proof.
  apply C10_undeclared_keys_are_ignored_when_not_strict.
  - reflexivity.
  - intros key [<- | []]. split; reflexivity.
Defined.

(** ** The library on the examples of its specification *)

Example email_examples :
  RegExp_test emailRegex "a@b.co" = true
  /\ RegExp_test emailRegex "abc" = false
  /\ RegExp_test emailRegex "a@b" = false
  /\ RegExp_test emailRegex "a b@c.de" = false.
Proof. repeat split. Qed.

Example phone_examples :
  validate (NumberValidator.phone Validator.number) (VStr "+12345678901") "f"
    ([] : Log)
  = ([], Returned (VBool true))
  /\ validate (NumberValidator.phone Validator.number) (VNum 1234567890) "f"
       ([] : Log)
     = ([], Returned (VBool true))
  /\ validate (NumberValidator.phone Validator.number) (VStr "123") "f"
       ([] : Log)
     = ([], Thrown (ValidationError "f" "Invalid phone number format")).
Proof. repeat split. Qed.

Example string_length_examples :
  validate (StringValidator.min 3 Validator.string) (VStr "ab") "f" ([] : Log)
  = ([], Thrown (ValidationError "f"
                   "Value must be at least 3 characters long"))
  /\ validate (StringValidator.min 3 Validator.string) (VStr "abc") "f"
       ([] : Log)
     = ([], Returned (VBool true))
  /\ validate (StringValidator.max 3 Validator.string) (VStr "abcd") "f"
       ([] : Log)
     = ([], Thrown (ValidationError "f"
                      "Value must be no more than 3 characters long"))
  /\ validate (StringValidator.max 3 Validator.string) (VStr "abc") "f"
       ([] : Log)
     = ([], Returned (VBool true)).
Proof. repeat split. Qed.

Example number_bounds_examples :
  validate (NumberValidator.max 10 (NumberValidator.min 0 Validator.number))
    (VNum (-1)) "f" ([] : Log)
  = ([], Thrown (ValidationError "f"
                   "Value must be greater than or equal to 0"))
  /\ validate (NumberValidator.max 10 (NumberValidator.min 0 Validator.number))
       (VNum 11) "f" ([] : Log)
     = ([], Thrown (ValidationError "f"
                      "Value must be less than or equal to 10"))
  /\ validate (NumberValidator.max 10 (NumberValidator.min 0 Validator.number))
       (VNum 5) "f" ([] : Log)
     = ([], Returned (VBool true)).
Proof. repeat split. Qed.

(** [items] before [maxLength]: on an array that is too long and holds a bad
    element, the error of the element is the one reported. *)
Example items_before_maxLength :
  validate
    (ArrayValidator.maxLength 1
       (ArrayValidator.items (NumberValidator.min 0 Validator.number)
          Validator.array))
    (VArr [VNum 1; VNum (-1)]) "xs" ([] : Log)
  = ([], Thrown (ValidationError "xs[1]"
                   "Value must be greater than or equal to 0")).
Proof. reflexivity. Qed.

Example json_texts :
  JSON_accepts ("{" ++ quoted "a" ++ ":1}") = true
  /\ JSON_accepts "{a:1}" = false
  /\ JSON_accepts "" = false
  /\ JSON_accepts "undefined" = false
  /\ JSON_accepts "null" = true
  /\ JSON_accepts " [1, -2.5e3, true, {}] " = true
  /\ JSON_accepts "[1,]" = false
  /\ JSON_accepts "01" = false.
Proof. repeat split. Qed.

Example schema_success :
  Schema.validate
    (Validator.createSchema
       [("name", BaseValidator.required Validator.string);
        ("age", NumberValidator.min 0 Validator.number)] false)
    (literal [("name", VStr "Al"); ("age", VNum 30)]) ([] : Log)
  = ([], Returned (VStr "Validation successful")).
Proof. reflexivity. Qed.

(** ** The further properties at work *)

(** [string().min(3).max(3)] on ['abc'], ['ab'] and ['abcd']. *)
Lemma string_length_bounds_witness :
  validate (StringValidator.max 3 (StringValidator.min 3 Validator.string))
    (VStr "abc") "f" ([] : Log)
  = ([], Returned (VBool true))
  /\ validate (StringValidator.max 3 (StringValidator.min 3 Validator.string))
       (VStr "ab") "f" ([] : Log)
     = ([], Thrown (ValidationError "f"
                      "Value must be at least 3 characters long"))
  /\ validate (StringValidator.max 3 (StringValidator.min 3 Validator.string))
       (VStr "abcd") "f" ([] : Log)
     = ([], Thrown (ValidationError "f"
                      "Value must be no more than 3 characters long")).
Proof.
  assert (H3 : safe_integer 3) by (unfold safe_integer; lia).
  split; [| split].
  - apply (proj1 (string_length_bounds_are_inclusive "abc" 3 3 "f" [] H3 H3)).
    simpl. lia.
  - apply (proj1 (proj2 (string_length_bounds_are_inclusive "ab" 3 3 "f" []
                           H3 H3))).
    simpl. lia.
  - apply (proj2 (proj2 (string_length_bounds_are_inclusive "abcd" 3 3 "f" []
                           H3 H3)));
      simpl; lia.
Defined.

(** [array().minLength(1).maxLength(2)] on arrays of two, none and three. *)
Lemma array_length_bounds_witness :
  validate
    (ArrayValidator.maxLength 2 (ArrayValidator.minLength 1 Validator.array))
    (VArr [VNum 1; VNull]) "xs" ([] : Log)
  = ([], Returned (VBool true))
  /\ validate
       (ArrayValidator.maxLength 2 (ArrayValidator.minLength 1 Validator.array))
       (VArr []) "xs" ([] : Log)
     = ([], Thrown (ValidationError "xs" "Array must contain at least 1 items"))
  /\ validate
       (ArrayValidator.maxLength 2 (ArrayValidator.minLength 1 Validator.array))
       (VArr [VNum 1; VNum 2; VNum 3]) "xs" ([] : Log)
     = ([], Thrown (ValidationError "xs"
                      "Array must contain no more than 2 items")).
Proof.
  assert (H1 : safe_integer 1) by (unfold safe_integer; lia).
  assert (H2 : safe_integer 2) by (unfold safe_integer; lia).
  split; [| split].
  - apply (proj1 (array_length_bounds_are_inclusive [VNum 1; VNull] 1 2 "xs" []
                    H1 H2)).
    simpl. lia.
  - apply (proj1 (proj2 (array_length_bounds_are_inclusive [] 1 2 "xs" []
                           H1 H2))).
    simpl. lia.
  - apply (proj2 (proj2 (array_length_bounds_are_inclusive
                           [VNum 1; VNum 2; VNum 3] 1 2 "xs" [] H1 H2)));
      simpl; lia.
Defined.

(** [number().min(0).max(10)] lets [null] pass as 0, and
    [number().min(2).max(10)] rejects [true] as 1. *)
Lemma number_range_witness :
  validate (NumberValidator.max 10 (NumberValidator.min 0 Validator.number))
    VNull "f" ([] : Log)
  = ([], Returned (VBool true))
  /\ validate (NumberValidator.max 10 (NumberValidator.min 2 Validator.number))
       (VBool true) "f" ([] : Log)
     = ([], Thrown (ValidationError "f"
                      "Value must be greater than or equal to 2")).
Proof.
  assert (Hsafe : forall n, (0 <= n <= 10)%Z -> safe_integer n).
  { intros n Hn. unfold safe_integer. lia. }
  split.
  - apply (proj1 (number_range_is_inclusive_and_untyped VNull 0 0 10 "f" []
                    eq_refl (Hsafe 0%Z ltac:(lia)) (Hsafe 0%Z ltac:(lia))
                    (Hsafe 10%Z ltac:(lia)))).
    lia.
  - apply (proj1 (proj2 (number_range_is_inclusive_and_untyped (VBool true)
                           1 2 10 "f" [] eq_refl
                           (Hsafe 1%Z ltac:(lia)) (Hsafe 2%Z ltac:(lia))
                           (Hsafe 10%Z ltac:(lia))))).
    lia.
Defined.


(** The number 42 under the five rules, bound 3, a required string validator
    for the items. *)
Lemma length_rules_on_a_number_witness :
  StringValidator.min_rule 3 (VNum 42) "f" ([] : Log) = ([], Returned tt)
  /\ StringValidator.max_rule 3 (VNum 42) "f" ([] : Log) = ([], Returned tt)
  /\ ArrayValidator.minLength_rule 3 (VNum 42) "f" ([] : Log)
     = ([], Returned tt)
  /\ ArrayValidator.maxLength_rule 3 (VNum 42) "f" ([] : Log)
     = ([], Returned tt)
  /\ ArrayValidator.items_rule (BaseValidator.required Validator.string)
       (VNum 42) "f" ([] : Log)
     = ([], Returned tt).
Proof.
  apply (length_rules_accept_values_without_length 3
           (BaseValidator.required Validator.string) (VNum 42) "f" []).
  exact I.
Defined.

(** [null] under the five rules. *)
Lemma length_rules_on_null_witness :
  StringValidator.min_rule 3 VNull "f" ([] : Log)
  = ([], Thrown (TypeError "Cannot read properties of null (reading 'length')"))
  /\ StringValidator.max_rule 3 VNull "f" ([] : Log)
     = ([], Thrown (TypeError
                      "Cannot read properties of null (reading 'length')"))
  /\ ArrayValidator.minLength_rule 3 VNull "f" ([] : Log)
     = ([], Thrown (TypeError
                      "Cannot read properties of null (reading 'length')"))
  /\ ArrayValidator.maxLength_rule 3 VNull "f" ([] : Log)
     = ([], Thrown (TypeError
                      "Cannot read properties of null (reading 'length')"))
  /\ ArrayValidator.items_rule (BaseValidator.required Validator.string)
       VNull "f" ([] : Log)
     = ([], Thrown (TypeError
                      "Cannot read properties of null (reading 'length')")).
Proof.
  exact (length_rules_throw_a_TypeError_on_nullish_values 3
           (BaseValidator.required Validator.string) VNull "f" []
           (or_intror eq_refl)).
Defined.

(** [string().min(1).required()] on ['']: [required] comes second, and the
    value is rejected all the same. *)
Lemma required_validator_witness :
  exists w' e,
    validate (BaseValidator.required (StringValidator.min 1 Validator.string))
      (VStr "") "f" ([] : Log)
    = (w', Thrown e).
Proof.
  apply (required_validator_never_accepts_a_missing_value IsString
           (BaseValidator.required (StringValidator.min 1 Validator.string))
           (VStr "") "f" []).
  - eapply chain_more; [eapply chain_more; [apply chain_done |] |].
    + apply (chained_string_min (BaseValidator.new IsString) 1). reflexivity.
    + apply chained_required.
  - reflexivity.
  - right. right. reflexivity.
Defined.


(** [number().min(0).max(10)] and [number().max(10).min(0)] on 5. *)
Lemma rule_order_witness :
  validate (NumberValidator.min 0 (NumberValidator.max 10 Validator.number))
    (VNum 5) "f" ([] : Log)
  = ([], Returned (VBool true)).
Proof.
  apply (proj1 (success_does_not_depend_on_the_order_of_the_rules
                  (NumberValidator.max 10 (NumberValidator.min 0 Validator.number))
                  (NumberValidator.min 0 (NumberValidator.max 10 Validator.number))
                  (VNum 5) "f" [] (VBool true) eq_refl eq_refl
                  (perm_swap _ _ [])
                  (Forall_cons _
                     (library_rule_is_pure _ (library_number_min 0))
                     (Forall_cons _
                        (library_rule_is_pure _ (library_number_max 10))
                        (Forall_nil _))))).
  reflexivity.
Defined.

(** The schema [{ age: number().min(0), name: string().required() }] on
    [{ age: 30, name: 'Al' }]. *)
Lemma schema_success_witness :
  none_missing
    [("age", NumberValidator.min 0 (Validator.number (World := Log)));
     ("name", BaseValidator.required Validator.string)]
    (literal [("age", VNum 30); ("name", VStr "Al")])
  /\ fields_pass (literal [("age", VNum 30); ("name", VStr "Al")])
       [("age", NumberValidator.min 0 Validator.number);
        ("name", BaseValidator.required Validator.string)]
       ([] : Log) [].
Proof.
  assert (Hnodup : NoDup ["age"; "name"]).
  { constructor; [intros [H | []]; discriminate H |].
    constructor; [intros [] | constructor]. }
  exact (proj2 (proj2 (schema_success_means_every_check_passed
           (Validator.createSchema
              [("age", NumberValidator.min 0 Validator.number);
               ("name", BaseValidator.required Validator.string)] true)
           (literal [("age", VNum 30); ("name", VStr "Al")]) [] []
           (VStr "Validation successful") Hnodup eq_refl))).
Defined.

(** [{ a: string() }], strict or not, on [{ a: 'x' }]. *)
Lemma strict_mode_witness :
  Schema.validate (Validator.createSchema [("a", Validator.string)] true)
    (literal [("a", VStr "x")]) ([] : Log)
  = Schema.validate (Validator.createSchema [("a", Validator.string)] false)
      (literal [("a", VStr "x")]) [].
Proof.
  apply strict_mode_changes_nothing_without_extra_keys.
  intros key [<- | []]. left. reflexivity.
Defined.

(** [{ name: string().required().min(2) }] on [{ name: '' }]. *)
Lemma present_but_empty_witness :
  Schema.validate
    (Validator.createSchema
       [("name", StringValidator.min 2 (BaseValidator.required Validator.string))]
       false)
    (literal [("name", VStr "")]) ([] : Log)
  = ([], Thrown (ValidationError "name" "Value is required")).
Proof.
  apply (present_but_empty_required_field_fails_with_value_is_required
           (Validator.createSchema
              [("name",
                StringValidator.min 2 (BaseValidator.required Validator.string))]
              false)
           (literal [("name", VStr "")]) [] "name" IsString
           (StringValidator.min 2 (BaseValidator.required Validator.string))
           [] [] []).
  - intro H. discriminate H.
  - intros key validator [Heq | []]. inversion Heq. left. reflexivity.
  - constructor; [intros [] | constructor].
  - reflexivity.
  - constructor.
  - reflexivity.
  - right. right. reflexivity.
  - eapply chain_more; [apply chain_done |].
    apply chained_string_min. reflexivity.
  - discriminate.
  - discriminate.
Defined.




(** A strict schema for an optional [a] and a required [b], on the record
    without any property: [b] is reported. *)
Lemma record_without_declared_fields_witness :
  Schema.validate
    (Validator.createSchema
       [("a", Validator.string);
        ("b", BaseValidator.required Validator.number)] true)
    (literal []) ([] : Log)
  = ([], Thrown (ValidationError "b" "Field is required")).
Proof.
  apply (record_without_declared_fields_fails_on_the_first_required_entry
           (Validator.createSchema
              [("a", Validator.string);
               ("b", BaseValidator.required Validator.number)] true)
           (literal []) []).
  - intros _ key [].
  - intros key _. reflexivity.
Defined.
